(** * Colaboradores API: the spreadsheet/database reconciliation pipeline

    A shallow embedding of [app/models.py], [app/services.py] and
    [app/routes.py].  The pipeline reads a spreadsheet (a pandas DataFrame),
    drops the rows without identifier, forward-fills merged cells, coerces
    each row into a [ColaboradorSheet], and left-joins the database records
    with them.

    What is modelled and where the model stops:
    - a DataFrame is taken as [pd.read_csv] and [rename] leave it: the list of
      its column labels and, per row, the values of the three columns the
      code reads.  A value is what [df.iterrows()] hands to the loop for that
      cell, that is, an element of [df.values]: a float (NaN for a blank), an
      int, a bool, or text.  In a frame whose columns are all numeric and not
      all int64, [df.values] is a float64 array, and the value of an int64
      cell is then the float of that int.  [dropna] and [fillna] only test
      whether a value is blank and copy values, so they act on these values
      as they do on the typed columns ([repair_map_cells] below);
    - the labels of a frame are distinct, as [read_csv] makes them.  A sheet
      that already has a column called matricula, cargo_contabil or salario
      beside the one renamed to it is outside the model: for a label that
      occurs twice [row[col]] is a Series, not a value;
    - a Python float is written as a decimal (sign, digits, power of ten) and
      is the binary64 float nearest to that decimal.  [int] of a float rounds
      the decimal to binary64 first; [str] of a float prints the decimal,
      which is Python's text when the decimal is the shortest one that names
      its float, as the text of a float cell is;
    - text is ASCII as far as the number parsers are concerned; CPython's
      optional limit on the length of integer literals is left out;
    - [fillna(method='ffill')] is the forward fill of the pandas versions
      that accept it;
    - Python exceptions are values of an error monad; [print] calls and the
      text of error messages are left out;
    - the HTTP download, the CSV parser and the SQL query are inputs
      ([sheet_source], [db_source]); a database row has its four fields. *)

From Stdlib Require Import ZArith NArith Ascii String Lia.
From stdpp Require Import gmap strings list pretty.

(** ** Python values and built-ins *)

Module Py.

Inductive exn := KeyError | ValueError | OverflowError.

Inductive result (A : Type) : Type :=
  | Ok (a : A)
  | Raise (e : exn).
Global Arguments Ok {A} a.
Global Arguments Raise {A} e.

Definition bind {A B} (r : result A) (k : A → result B) : result B :=
  match r with
  | Ok a => k a
  | Raise e => Raise e
  end.

Global Instance result_ret : MRet result := @Ok.
Global Instance result_bind : MBind result := λ A B k r, bind r k.

(** A float: NaN, an infinity, or the binary64 float nearest to
    [(-1)^neg * m * 10^e], a decimal in the range of the finite floats
    ([make_float] keeps it there). *)
Inductive float :=
  | FNan
  | FInf (neg : bool)
  | FDec (neg : bool) (m : N) (e : Z).

(** A decimal at or beyond the midpoint between the largest float and
    [2^1024] rounds to an infinity. *)
Definition overflows (m : N) (e : Z) : bool :=
  if (m =? 0)%N then false
  else
    let bound := (2 ^ 1024 - 2 ^ 970)%Z in
    if (0 <=? e)%Z then (bound <=? Z.of_N m * 10 ^ e)%Z
    else (bound * 10 ^ (- e) <=? Z.of_N m)%Z.

Definition make_float (neg : bool) (m : N) (e : Z) : float :=
  if overflows m e then FInf neg else FDec neg m e.

(** Equality of the decimals two floats carry.  It is Python's [==] when
    both decimals have at most 15 significant digits and are in the normal
    range: such decimals are told apart by the floats nearest to them. *)
Definition float_eqb (x y : float) : bool :=
  match x, y with
  | FInf a, FInf b => Bool.eqb a b
  | FDec a m1 e1, FDec b m2 e2 =>
      let e := Z.min e1 e2 in
      let v1 := (Z.of_N m1 * 10 ^ (e1 - e))%Z in
      let v2 := (Z.of_N m2 * 10 ^ (e2 - e))%Z in
      (v1 =? v2)%Z && ((v1 =? 0)%Z || Bool.eqb a b)
  | _, _ => false
  end.

(** Character classes of the C locale, as CPython's parsers use them. *)
Definition is_digit (c : ascii) : bool :=
  (48 <=? N_of_ascii c)%N && (N_of_ascii c <=? 57)%N.

Definition digit_value (c : ascii) : N := (N_of_ascii c - 48)%N.

Definition is_space (c : ascii) : bool :=
  let n := N_of_ascii c in
  (n =? 32)%N || ((9 <=? n)%N && (n <=? 13)%N).

Definition lower (c : ascii) : ascii :=
  let n := N_of_ascii c in
  if (65 <=? n)%N && (n <=? 90)%N then ascii_of_N (n + 32) else c.

Fixpoint lower_str (s : string) : string :=
  match s with
  | EmptyString => EmptyString
  | String c t => String (lower c) (lower_str t)
  end.

Fixpoint lstrip (s : string) : string :=
  match s with
  | EmptyString => EmptyString
  | String c t => if is_space c then lstrip t else s
  end.

Fixpoint rstrip (s : string) : string :=
  match s with
  | EmptyString => EmptyString
  | String c t =>
      match rstrip t with
      | EmptyString => if is_space c then EmptyString else String c EmptyString
      | t' => String c t'
      end
  end.

Definition strip (s : string) : string := rstrip (lstrip s).

(** [s.replace(old, new)] for a one-character [old]. *)
Fixpoint replace (old : ascii) (new : string) (s : string) : string :=
  match s with
  | EmptyString => EmptyString
  | String c t =>
      if Ascii.eqb c old then new +:+ replace old new t
      else String c (replace old new t)
  end.

(** Value of a run of decimal digits, most significant first. *)
Fixpoint digits_value (acc : N) (s : string) : N :=
  match s with
  | EmptyString => acc
  | String c t => digits_value (acc * 10 + digit_value c) t
  end.

(** The longest prefix of digits, and what follows it. *)
Fixpoint span_digits (s : string) : string * string :=
  match s with
  | EmptyString => (EmptyString, EmptyString)
  | String c t =>
      if is_digit c then
        let '(d, r) := span_digits t in (String c d, r)
      else (EmptyString, s)
  end.

Definition split_sign (s : string) : bool * string :=
  match s with
  | String "-" t => (true, t)
  | String "+" t => (false, t)
  | _ => (false, s)
  end.

(** Digit-group underscores of numeric literals: an underscore is allowed
    only between two digits; they are removed before parsing. *)
Fixpoint remove_underscores (prev : ascii) (s : string) : option string :=
  match s with
  | EmptyString => if Ascii.eqb prev "_" then None else Some EmptyString
  | String c t =>
      if Ascii.eqb c "_" then
        if is_digit prev then remove_underscores c t else None
      else if Ascii.eqb prev "_" && negb (is_digit c) then None
      else String c <$> remove_underscores c t
  end.

(** [digits [. digits] [(e|E) [sign] digits]], with a digit on at least one
    side of the point: mantissa and power of ten. *)
Definition parse_decimal (s : string) : option (N * Z) :=
  let '(ip, r1) := span_digits s in
  let '(fp, r2) :=
    match r1 with
    | String "." t => span_digits t
    | _ => (EmptyString, r1)
    end in
  if String.eqb (ip +:+ fp) "" then None
  else
    let m := digits_value 0 (ip +:+ fp) in
    let scale := Z.of_nat (String.length fp) in
    match r2 with
    | EmptyString => Some (m, (- scale)%Z)
    | String c t =>
        if Ascii.eqb (lower c) "e" then
          let '(eneg, t') := split_sign t in
          let '(ed, r3) := span_digits t' in
          if String.eqb ed "" || negb (String.eqb r3 "") then None
          else
            let x := Z.of_N (digits_value 0 ed) in
            Some (m, ((if eneg then - x else x) - scale)%Z)
        else None
    end.

(** [float(s)] for a [str] argument. *)
Definition float_of_str (s : string) : result float :=
  match remove_underscores "000" s with
  | None => Raise ValueError
  | Some s1 =>
      let '(neg, body) := split_sign (strip s1) in
      let name := lower_str body in
      if String.eqb name "inf" || String.eqb name "infinity" then Ok (FInf neg)
      else if String.eqb name "nan" then Ok FNan
      else
        match parse_decimal body with
        | Some (m, e) => Ok (make_float neg m e)
        | None => Raise ValueError
        end
  end.

(** Digits of an integer literal, single underscores between digits. *)
Fixpoint int_body (after_underscore : bool) (acc : N) (s : string) : option N :=
  match s with
  | EmptyString => if after_underscore then None else Some acc
  | String c t =>
      if is_digit c then int_body false (acc * 10 + digit_value c) t
      else if Ascii.eqb c "_" then
        if after_underscore then None else int_body true acc t
      else None
  end.

(** [int(s)] for a [str] argument, base ten. *)
Definition int_of_str (s : string) : result Z :=
  let '(neg, body) := split_sign (strip s) in
  match body with
  | String c _ =>
      if is_digit c then
        match int_body false 0 body with
        | Some n => Ok (if neg then - Z.of_N n else Z.of_N n)%Z
        | None => Raise ValueError
        end
      else Raise ValueError
  | EmptyString => Raise ValueError
  end.

(** [n / d] rounded to the nearest integer, a tie going to the even one. *)
Definition div_half_even (n d : Z) : Z :=
  let q := (n / d)%Z in
  let r := (n mod d)%Z in
  if (2 * r <? d)%Z then q
  else if (d <? 2 * r)%Z then (q + 1)%Z
  else if Z.even q then q else (q + 1)%Z.

(** The exponent [k] with [2^k <= n/d < 2^(k+1)], for positive [n] and [d]. *)
Definition binade (n d : Z) : Z :=
  if (d <=? n)%Z then Z.log2 (n / d)
  else (- Z.log2_up ((d + n - 1) / n))%Z.

(** The binary64 float nearest to [n/d], for positive [n] and [d]: its
    significand [q] and exponent [p], the float being [q * 2^p].  The
    significand has 53 bits, fewer below [2^-1022]; a tie goes to the even
    significand. *)
Definition nearest_double (n d : Z) : Z * Z :=
  let p := Z.max (binade n d - 52) (-1074) in
  let q := if (0 <=? p)%Z then div_half_even n (d * 2 ^ p)
           else div_half_even (n * 2 ^ (- p)) d in
  (q, p).

(** The decimal [m * 10^e] as a fraction. *)
Definition fraction (m : N) (e : Z) : Z * Z :=
  if (0 <=? e)%Z then (Z.of_N m * 10 ^ e, 1)%Z
  else (Z.of_N m, 10 ^ (- e))%Z.

(** [int(x)] for a float: the integer part of the binary64 float, which is
    the float nearest to the decimal that [x] carries. *)
Definition int_of_float (x : float) : result Z :=
  match x with
  | FNan => Raise ValueError
  | FInf _ => Raise OverflowError
  | FDec neg m e =>
      if (m =? 0)%N then Ok 0%Z
      else
        let '(n, d) := fraction m e in
        let '(q, p) := nearest_double n d in
        let a := (if (0 <=? p)%Z then q * 2 ^ p else q / 2 ^ (- p))%Z in
        Ok (if neg then - a else a)%Z
  end.

(** [str(n)] for an int. *)
Definition str_of_int (z : Z) : string := pretty z.

Fixpoint zeros (n : nat) : string :=
  match n with
  | O => EmptyString
  | S k => String "0" (zeros k)
  end.

(** Trailing zeros dropped from a digit string, and how many there were. *)
Fixpoint drop_trailing_zeros (s : string) : string * nat :=
  match s with
  | EmptyString => (EmptyString, O)
  | String c t =>
      match drop_trailing_zeros t with
      | (EmptyString, k) =>
          if Ascii.eqb c "0" then (EmptyString, S k) else (String c EmptyString, k)
      | (t', k) => (String c t', k)
      end
  end.

Definition string_take (n : nat) (s : string) : string := String.substring 0 n s.
Definition string_drop (n : nat) (s : string) : string :=
  String.substring n (String.length s - n) s.

(** [str(x)] (and [repr]) for a float: fixed notation while the decimal
    point falls in [-3 .. 16], exponent notation outside. *)
Definition str_of_float (x : float) : string :=
  match x with
  | FNan => "nan"
  | FInf neg => if neg then "-inf" else "inf"
  | FDec neg m e =>
      let sign := if neg then "-" else "" in
      if (m =? 0)%N then sign +:+ "0.0"
      else
        let '(ds, k) := drop_trailing_zeros (pretty m) in
        let n := String.length ds in
        let decpt := (Z.of_nat n + e + Z.of_nat k)%Z in
        if (decpt <=? -4)%Z || (16 <? decpt)%Z then
          let x10 := (decpt - 1)%Z in
          let frac := string_drop 1 ds in
          let ex := pretty (Z.abs x10) in
          sign +:+ string_take 1 ds
               +:+ (if String.eqb frac "" then "" else "." +:+ frac)
               +:+ "e" +:+ (if (x10 <? 0)%Z then "-" else "+")
               +:+ (if (Z.abs x10 <? 10)%Z then "0" +:+ ex else ex)
        else if (decpt <=? 0)%Z then
          sign +:+ "0." +:+ zeros (Z.to_nat (- decpt)) +:+ ds
        else if (Z.of_nat n <=? decpt)%Z then
          sign +:+ ds +:+ zeros (Z.to_nat decpt - n) +:+ ".0"
        else
          sign +:+ string_take (Z.to_nat decpt) ds +:+ "."
               +:+ string_drop (Z.to_nat decpt) ds
  end.

(** Truth value of a [str]. *)
Definition truthy (s : string) : bool := negb (String.eqb s "").

End Py.

Export Py.

(** ** DataFrame values *)

Inductive cell :=
  | Bool (b : bool)
  | Int (z : Z)
  | Float (x : float)
  | Str (s : string).

(** A blank cell. *)
Abbreviation NaN := (Float FNan).

(** [pd.notna] *)
Definition notna (c : cell) : bool :=
  match c with
  | Float FNan => false
  | _ => true
  end.

(** [str(c)] *)
Definition py_str (c : cell) : string :=
  match c with
  | Bool b => if b then "True" else "False"
  | Int z => str_of_int z
  | Float x => str_of_float x
  | Str s => s
  end.

(** [int(c)] *)
Definition py_int (c : cell) : result Z :=
  match c with
  | Bool b => Ok (if b then 1 else 0)%Z
  | Int z => Ok z
  | Float x => int_of_float x
  | Str s => int_of_str s
  end.

(** [float(s)] *)
Definition py_float (s : string) : result float := float_of_str s.

(** ** app/models.py *)

Module ColaboradorDB.
Record t := mk {
  codigo : Z;
  nome : string;
  cpf : string;
  genero : string
}.
End ColaboradorDB.

Module ColaboradorSheet.
Record t := mk {
  matricula : string;
  cargo_contabil : option string;
  salario : option float;
  admissao : option string
}.
End ColaboradorSheet.

Module ColaboradorCompleto.
Record t := mk {
  codigo : Z;
  nome : string;
  cpf : string;
  genero : string;
  cargo_contabil : option string;
  salario : option float;
  admissao : option string
}.
End ColaboradorCompleto.

(** ** The DataFrame after [read_csv(..., skiprows=4)] and [rename] *)

(** The three values of a row that the service reads, as [df.values] holds
    them.  The value of a column that the frame does not have is never
    looked at. *)
Record Row := mkRow {
  c_matricula : cell;
  c_cargo_contabil : cell;
  c_salario : cell
}.

Record DataFrame := mkDataFrame {
  columns : list string;
  rows : list Row
}.

Definition loc (row : Row) (col : string) : cell :=
  if String.eqb col "matricula" then c_matricula row
  else if String.eqb col "cargo_contabil" then c_cargo_contabil row
  else if String.eqb col "salario" then c_salario row
  else NaN.

Definition set_loc (row : Row) (col : string) (v : cell) : Row :=
  if String.eqb col "matricula" then
    mkRow v (c_cargo_contabil row) (c_salario row)
  else if String.eqb col "cargo_contabil" then
    mkRow (c_matricula row) v (c_salario row)
  else if String.eqb col "salario" then
    mkRow (c_matricula row) (c_cargo_contabil row) v
  else row.

(** [row[col]] in a frame with distinct labels: the value under the label,
    [KeyError] when the frame has no such label. *)
Definition getitem (cols : list string) (row : Row) (col : string) : result cell :=
  if bool_decide (col ∈ cols) then Ok (loc row col) else Raise KeyError.

(** [df[col]] and [df[col] = values] *)
Definition column (df : DataFrame) (col : string) : list cell :=
  map (λ r, loc r col) (rows df).

Definition set_column (df : DataFrame) (col : string) (values : list cell) : DataFrame :=
  mkDataFrame (columns df) (zip_with (λ r v, set_loc r col v) (rows df) values).

(** [df.dropna(subset=[col])] *)
Definition dropna (df : DataFrame) (col : string) : result DataFrame :=
  if bool_decide (col ∈ columns df) then
    Ok (mkDataFrame (columns df) (filter (λ r, notna (loc r col)) (rows df)))
  else Raise KeyError.

(** [series.fillna(method='ffill')]: [seen] is the last valid value seen. *)
Fixpoint ffill (seen : cell) (series : list cell) : list cell :=
  match series with
  | [] => []
  | c :: t => if notna c then c :: ffill c t else seen :: ffill seen t
  end.

Definition fillna_ffill (series : list cell) : list cell := ffill NaN series.

(** ** app/services.py *)

Inductive db_source :=
  | ConnectFailed
  | QueryFailed
  | Fetched (rows : list (Z * string * string * string)).

Definition get_colaboradores_from_db (src : db_source) : list ColaboradorDB.t :=
  match src with
  | ConnectFailed => []
  | QueryFailed => []
  | Fetched rows =>
      map (λ row, match row with
                  | (c, n, p, g) => ColaboradorDB.mk c n p g
                  end) rows
  end.

(** Lines 106-107: the body of the merged-cell loop. *)
Definition fill_column (df : DataFrame) (col : string) : DataFrame :=
  if bool_decide (col ∈ columns df)
  then set_column df col (fillna_ffill (column df col))
  else df.

Definition merged_columns : list string :=
  ["matricula"; "cargo_contabil"; "salario"].

(** Lines 105-107: the merged-cell loop. *)
Definition fill_merged (df : DataFrame) : DataFrame :=
  foldl fill_column df merged_columns.

(** Line 114: [str(int(m)) if pd.notna(m) else None] *)
Definition matricula_val (m : cell) : result (option string) :=
  if notna m then z ← py_int m; Ok (Some (str_of_int z)) else Ok None.

(** Line 115:
    [float(str(s).replace('.', '').replace(',', '.')) if pd.notna(s) else None] *)
Definition salario_val (s : cell) : result (option float) :=
  if notna s
  then x ← py_float (replace "," "." (replace "." "" (py_str s))); Ok (Some x)
  else Ok None.

(** Lines 114-123: the body of the [try] for one row; [None] when nothing
    is appended. *)
Definition convert_row (cols : list string) (row : Row)
  : result (option ColaboradorSheet.t) :=
  m ← getitem cols row "matricula";
  matricula_val ← matricula_val m;
  s ← getitem cols row "salario";
  salario_val ← salario_val s;
  match matricula_val with
  | Some mv =>
      if truthy mv then
        c ← getitem cols row "cargo_contabil";
        Ok (Some (ColaboradorSheet.mk mv
                    (if notna c then Some (py_str c) else None)
                    salario_val None))
      else Ok None
  | None => Ok None
  end.

(** Lines 110-129: the loop over [df.iterrows()], which hands out the rows
    of [df.values] one by one.  [KeyError] and [ValueError] skip the row; any
    other exception leaves the loop. *)
Fixpoint iterrows (cols : list string) (rs : list Row)
    (colaboradores_sheet : list ColaboradorSheet.t)
  : result (list ColaboradorSheet.t) :=
  match rs with
  | [] => Ok colaboradores_sheet
  | row :: rest =>
      match convert_row cols row with
      | Ok (Some c) => iterrows cols rest (colaboradores_sheet ++ [c])
      | Ok None => iterrows cols rest colaboradores_sheet
      | Raise KeyError => iterrows cols rest colaboradores_sheet
      | Raise ValueError => iterrows cols rest colaboradores_sheet
      | Raise e => Raise e
      end
  end.

(** What [requests.get], [raise_for_status], [pd.read_csv] and [rename]
    produce for a URL. *)
Inductive sheet_source :=
  | RequestException
  | EmptyDataError
  | OtherError
  | Loaded (df : DataFrame).

(** Lines 95-107: rows without identifier go first, then merged cells are
    filled. *)
Definition repair (df : DataFrame) : result DataFrame :=
  df ← dropna df "matricula";
  Ok (fill_merged df).

(** Lines 95-131 on a loaded frame. *)
Definition clean_frame (df : DataFrame) : result (list ColaboradorSheet.t) :=
  df ← repair df;
  iterrows (columns df) (rows df) [].

Definition get_colaboradores_from_google_sheets_csv (src : sheet_source)
  : list ColaboradorSheet.t :=
  match src with
  | RequestException => []
  | EmptyDataError => []
  | OtherError => []
  | Loaded df =>
      match clean_frame df with
      | Ok colaboradores_sheet => colaboradores_sheet
      | Raise _ => []
      end
  end.

(** The dict comprehension of line 147, one insertion per record in input
    order. *)
Definition sheet_data_map (sheet_data : list ColaboradorSheet.t)
  : gmap string ColaboradorSheet.t :=
  foldl (λ m col, <[ColaboradorSheet.matricula col := col]> m) ∅ sheet_data.

(** Lines 152-174: the body of the loop.  A [ColaboradorSheet] object is
    always true, so the test of line 154 is a test against [None]. *)
Definition combine_one (m : gmap string ColaboradorSheet.t)
    (db_colaborador : ColaboradorDB.t) : ColaboradorCompleto.t :=
  match m !! str_of_int (ColaboradorDB.codigo db_colaborador) with
  | Some sheet_colaborador =>
      ColaboradorCompleto.mk
        (ColaboradorDB.codigo db_colaborador)
        (ColaboradorDB.nome db_colaborador)
        (ColaboradorDB.cpf db_colaborador)
        (ColaboradorDB.genero db_colaborador)
        (ColaboradorSheet.cargo_contabil sheet_colaborador)
        (ColaboradorSheet.salario sheet_colaborador)
        (ColaboradorSheet.admissao sheet_colaborador)
  | None =>
      ColaboradorCompleto.mk
        (ColaboradorDB.codigo db_colaborador)
        (ColaboradorDB.nome db_colaborador)
        (ColaboradorDB.cpf db_colaborador)
        (ColaboradorDB.genero db_colaborador)
        None None None
  end.

Definition combine_colaboradores_data (db_data : list ColaboradorDB.t)
    (sheet_data : list ColaboradorSheet.t) : list ColaboradorCompleto.t :=
  let m := sheet_data_map sheet_data in
  foldl (λ combined_data db_colaborador,
           combined_data ++ [combine_one m db_colaborador])
        [] db_data.

(** ** app/routes.py *)

(** A handler returns a body or raises [HTTPException(status_code=...)]. *)
Inductive response (A : Type) : Type :=
  | Return (body : A)
  | HTTPException (status_code : Z).
Global Arguments Return {A} body.
Global Arguments HTTPException {A} status_code.

(** [try: ... except Exception: raise HTTPException(status_code=500, ...)] *)
Definition except_Exception_500 {A} (attempt : response A) : response A :=
  match attempt with
  | Return body => Return body
  | HTTPException _ => HTTPException 500
  end.

Definition read_colaboradores_from_db (db : db_source)
  : response (list ColaboradorDB.t) :=
  except_Exception_500
    (let colaboradores := get_colaboradores_from_db db in
     match colaboradores with
     | [] => HTTPException 500
     | _ => Return colaboradores
     end).

Definition read_colaboradores_from_sheets (web : string → sheet_source)
    (sheet_url : string) : response (list ColaboradorSheet.t) :=
  if negb (truthy sheet_url) then HTTPException 400
  else
    except_Exception_500
      (let colaboradores := get_colaboradores_from_google_sheets_csv (web sheet_url) in
       match colaboradores with
       | [] => HTTPException 500
       | _ => Return colaboradores
       end).

Definition get_colaboradores_completos (db : db_source) (web : string → sheet_source)
    (sheet_url : string) : response (list ColaboradorCompleto.t) :=
  if negb (truthy sheet_url) then HTTPException 400
  else
    let db_data := get_colaboradores_from_db db in
    match db_data with
    | [] => HTTPException 500
    | _ =>
        let sheet_data := get_colaboradores_from_google_sheets_csv (web sheet_url) in
        match sheet_data with
        | [] => HTTPException 500
        | _ => Return (combine_colaboradores_data db_data sheet_data)
        end
    end.

(** ** Vocabulary of the statements *)

(** The record built when the lookup finds [e], and when it finds nothing. *)
Definition matched (a : ColaboradorDB.t) (e : ColaboradorSheet.t)
  : ColaboradorCompleto.t :=
  ColaboradorCompleto.mk
    (ColaboradorDB.codigo a) (ColaboradorDB.nome a)
    (ColaboradorDB.cpf a) (ColaboradorDB.genero a)
    (ColaboradorSheet.cargo_contabil e) (ColaboradorSheet.salario e)
    (ColaboradorSheet.admissao e).

Definition unmatched (a : ColaboradorDB.t) : ColaboradorCompleto.t :=
  ColaboradorCompleto.mk
    (ColaboradorDB.codigo a) (ColaboradorDB.nome a)
    (ColaboradorDB.cpf a) (ColaboradorDB.genero a)
    None None None.

(** The authoritative part of a combined record. *)
Definition authoritative_part (c : ColaboradorCompleto.t) : ColaboradorDB.t :=
  ColaboradorDB.mk
    (ColaboradorCompleto.codigo c) (ColaboradorCompleto.nome c)
    (ColaboradorCompleto.cpf c) (ColaboradorCompleto.genero c).

(** The external records stored under identifier [k], in input order. *)
Definition with_id (k : string) (sheet_data : list ColaboradorSheet.t)
  : list ColaboradorSheet.t :=
  filter (λ e, ColaboradorSheet.matricula e = k) sheet_data.

(** The nearest non-blank value of a series, read from its end; blank when
    there is none. *)
Definition last_valid (series : list cell) : cell :=
  default NaN (last (filter (λ c, notna c) series)).

(** The record a row contributes to the external set, if any. *)
Definition record_of (cols : list string) (row : Row) : option ColaboradorSheet.t :=
  match convert_row cols row with
  | Ok (Some c) => Some c
  | _ => None
  end.

(** The identifier an identifier cell stands for, if any. *)
Definition id_of (m : cell) : option string :=
  if notna m then
    match py_int m with
    | Ok z => Some (str_of_int z)
    | Raise _ => None
    end
  else None.


(** Text made of decimal digits only. *)
Fixpoint all_digits (s : string) : bool :=
  match s with
  | EmptyString => true
  | String c t => is_digit c && all_digits t
  end.

(** The records of the join example. *)
Definition ana : ColaboradorDB.t := ColaboradorDB.mk 42 "Ana" "111" "F".

Definition caixa (matricula : string) : ColaboradorSheet.t :=
  ColaboradorSheet.mk matricula (Some "Caixa") (Some (FDec false 15000 (-1))) None.

(** A frame with the three columns and no data row, and a web that serves it. *)
Definition empty_frame : DataFrame :=
  mkDataFrame ["matricula"; "cargo_contabil"; "salario"] [].

Definition empty_sheet (url : string) : sheet_source := Loaded empty_frame.

(** Sample frames.  An identifier column that holds an infinity is a float
    column; a column that holds text holds every non-blank cell as text. *)
Definition blank_salary_frame : DataFrame :=
  mkDataFrame merged_columns [ mkRow (Str "5") (Str "Caixa") NaN ].

Definition overflow_frame : DataFrame :=
  mkDataFrame merged_columns
    [ mkRow (Float (FInf false)) (Str "Caixa") (Str "abc");
      mkRow (Float (FDec false 2 0)) (Str "Fiscal") (Str "1.500,00") ].

Definition overflow_frame_rest : DataFrame :=
  mkDataFrame merged_columns
    [ mkRow (Float (FDec false 2 0)) (Str "Fiscal") (Str "1.500,00") ].

Definition bad_salary_row : Row := mkRow (Str "7") (Str "Caixa") (Str "abc").



(** A row with an infinite identifier above a usable row, and the frame
    without the former; a database with the record the usable row joins. *)
Definition infinite_identifier_row : Row :=
  mkRow (Float (FInf false)) (Str "Caixa") (Str "100").

Definition infinite_identifier_frame : DataFrame :=
  mkDataFrame merged_columns
    [ infinite_identifier_row;
      mkRow (Float (FDec false 20 (-1))) (Str "Fiscal") (Str "1.500,00") ].

Definition usable_rows_frame : DataFrame :=
  mkDataFrame merged_columns
    [ mkRow (Float (FDec false 20 (-1))) (Str "Fiscal") (Str "1.500,00") ].

Definition bia_db : db_source := Fetched [(2%Z, "Bia", "333", "F")].

(** The rows of the forward-fill example, as text and as [read_csv] types
    them when every cell of the identifier and salary columns is numeric. *)
Definition merged_text_frame : DataFrame :=
  mkDataFrame merged_columns
    [ mkRow (Str "1") (Str "roleA") (Str "100");
      mkRow NaN NaN NaN;
      mkRow (Str "2") (Str "roleB") (Str "200") ].

Definition merged_numeric_frame : DataFrame :=
  mkDataFrame merged_columns
    [ mkRow (Float (FDec false 10 (-1))) (Str "roleA") (Float (FDec false 1000 (-1)));
      mkRow NaN NaN NaN;
      mkRow (Float (FDec false 20 (-1))) (Str "roleB") (Float (FDec false 2000 (-1))) ].

(** A merged role and salary under a row that has its own identifier. *)
Definition merged_role_frame : DataFrame :=
  mkDataFrame merged_columns
    [ mkRow (Str "1") (Str "roleA") (Str "100");
      mkRow (Str "2") NaN NaN;
      mkRow (Str "3") (Str "roleB") (Str "200") ].

(** The inputs at which the statements below are instantiated. *)
Definition fiscal_42 : ColaboradorSheet.t :=
  ColaboradorSheet.mk "42" (Some "Fiscal") (Some (FDec false 2000 0)) (Some "x").

Definition blank_salary_row : Row := mkRow (Str "5") (Str "Caixa") NaN.

Definition eva_db : db_source := Fetched [(5%Z, "Eva", "222", "F")].

Definition blank_salary_sheet (url : string) : sheet_source :=
  Loaded blank_salary_frame.

(** The join keys of the authoritative records, as line 152 builds them. *)
Definition db_keys (db_data : list ColaboradorDB.t) : list string :=
  map (λ a, str_of_int (ColaboradorDB.codigo a)) db_data.

(** Text made of decimal digits and dots only. *)
Fixpoint digits_or_dots (s : string) : bool :=
  match s with
  | EmptyString => true
  | String c t => (is_digit c || Ascii.eqb c ".") && digits_or_dots t
  end.

(** A conversion applied to every value of a frame, as [df.values] applies
    one to the int64 columns of a frame whose other columns are float64. *)
Definition map_row (f : cell → cell) (r : Row) : Row :=
  mkRow (f (c_matricula r)) (f (c_cargo_contabil r)) (f (c_salario r)).

Definition map_cells (f : cell → cell) (df : DataFrame) : DataFrame :=
  mkDataFrame (columns df) (map (map_row f) (rows df)).

(** The value [df.values] holds for a cell when the array is float64: an int
    becomes the float of that int. *)
Definition upcast (c : cell) : cell :=
  match c with
  | Int z => Float (FDec (z <? 0)%Z (Z.abs_N z) 0)
  | _ => c
  end.

(** * Properties *)

(** ** Python built-ins on sample inputs *)

Example str_1500 : py_str (Float (FDec false 15000 (-1))) = "1500.0".
Proof. vm_compute. reflexivity. Qed.
Example str_123456 : py_str (Float (FDec false 123456 (-2))) = "1234.56".
Proof. vm_compute. reflexivity. Qed.
Example str_1e16 : py_str (Float (FDec false 1 16)) = "1e+16".
Proof. vm_compute. reflexivity. Qed.
Example str_1e15 : py_str (Float (FDec false 1 15)) = "1000000000000000.0".
Proof. vm_compute. reflexivity. Qed.
Example str_small : py_str (Float (FDec true 15 (-6))) = "-1.5e-05".
Proof. vm_compute. reflexivity. Qed.
Example str_0001 : py_str (Float (FDec false 1 (-4))) = "0.0001".
Proof. vm_compute. reflexivity. Qed.
Example float_abc : py_float "abc" = Raise ValueError.
Proof. vm_compute. reflexivity. Qed.
Example float_ok : py_float " -1_000.5e+2 " = Ok (FDec true 10005 1).
Proof. vm_compute. reflexivity. Qed.
Example float_bad_e : py_float "1e" = Raise ValueError.
Proof. vm_compute. reflexivity. Qed.
Example float_dot : py_float "." = Raise ValueError.
Proof. vm_compute. reflexivity. Qed.
Example float_inf : py_float "-Infinity" = Ok (FInf true).
Proof. vm_compute. reflexivity. Qed.
Example float_huge : py_float "-8E662" = Ok (FInf true).
Proof. vm_compute. reflexivity. Qed.
Example float_max : py_float "1.7976931348623157e308" = Ok (FDec false 17976931348623157 292).
Proof. vm_compute. reflexivity. Qed.
Example float_over : py_float "1.7976931348623159e308" = Ok (FInf false).
Proof. vm_compute. reflexivity. Qed.
Example int_ok : py_int (Str " +0_42 ") = Ok 42%Z.
Proof. vm_compute. reflexivity. Qed.
Example int_frac_text : py_int (Str "42.0") = Raise ValueError.
Proof. vm_compute. reflexivity. Qed.
Example int_frac_float : py_int (Float (FDec true 427 (-1))) = Ok (-42)%Z.
Proof. vm_compute. reflexivity. Qed.
Example int_1e23 : py_int (Float (FDec false 1 23)) = Ok 99999999999999991611392%Z.
Proof. vm_compute. reflexivity. Qed.
Example int_2p53_1 : py_int (Float (FDec false 9007199254740993 0)) = Ok 9007199254740992%Z.
Proof. vm_compute. reflexivity. Qed.
Example int_nearly_one : py_int (Float (FDec false 99999999999999999 (-17))) = Ok 1%Z.
Proof. vm_compute. reflexivity. Qed.

(** ** The integer part of a float *)

Section Binary64.

Local Open Scope Z_scope.

Implicit Types (n d q p k : Z).






Lemma int_of_float_finite (neg : bool) (m : N) (e : Z) :
  ∃ z, int_of_float (FDec neg m e) = Ok z.
Proof.
  unfold int_of_float. destruct (m =? 0)%N; [by eexists|].
  destruct (fraction m e) as [n d]. destruct (nearest_double n d) as [q p].
  by eexists.
Qed.

End Binary64.

(** ** The reconciler *)

Section Reconciler.

Implicit Types (a : ColaboradorDB.t) (e : ColaboradorSheet.t).
Implicit Types (db_data : list ColaboradorDB.t).
Implicit Types (sheet_data : list ColaboradorSheet.t).

Lemma append_loop_map {A B} (f : A → B) (l : list A) (acc : list B) :
  foldl (λ acc x, acc ++ [f x]) acc l = acc ++ map f l.
Proof.
  revert acc. induction l as [|x l IH]; intros acc; simpl.
  - by rewrite app_nil_r.
  - rewrite IH. by rewrite <- app_assoc.
Qed.

Lemma combine_as_map db_data sheet_data :
  combine_colaboradores_data db_data sheet_data
  = map (combine_one (sheet_data_map sheet_data)) db_data.
Proof. unfold combine_colaboradores_data. by rewrite append_loop_map. Qed.

Lemma sheet_data_map_snoc sheet_data e :
  sheet_data_map (sheet_data ++ [e])
  = <[ColaboradorSheet.matricula e := e]> (sheet_data_map sheet_data).
Proof. unfold sheet_data_map. by rewrite foldl_snoc. Qed.

Lemma sheet_data_map_lookup sheet_data k :
  sheet_data_map sheet_data !! k = last (with_id k sheet_data).
Proof.
  induction sheet_data as [|e l IH] using rev_ind; [done|].
  rewrite sheet_data_map_snoc. unfold with_id in *. rewrite filter_app.
  destruct (decide (ColaboradorSheet.matricula e = k)) as [Heq|Hne].
  - rewrite filter_cons_True by done. rewrite filter_nil, last_snoc.
    subst k. by rewrite lookup_insert_eq.
  - rewrite filter_cons_False by done. rewrite filter_nil, app_nil_r.
    by rewrite lookup_insert_ne.
Qed.

Lemma combine_one_matched sheet_data a e :
  last (with_id (str_of_int (ColaboradorDB.codigo a)) sheet_data) = Some e →
  combine_one (sheet_data_map sheet_data) a = matched a e.
Proof.
  intros H. unfold combine_one. by rewrite sheet_data_map_lookup, H.
Qed.

Lemma combine_one_unmatched sheet_data a :
  with_id (str_of_int (ColaboradorDB.codigo a)) sheet_data = [] →
  combine_one (sheet_data_map sheet_data) a = unmatched a.
Proof.
  intros H. unfold combine_one. by rewrite sheet_data_map_lookup, H.
Qed.

Lemma authoritative_part_combine_one m a :
  authoritative_part (combine_one m a) = a.
Proof. unfold combine_one. destruct a. by destruct (m !! _). Qed.

Lemma last_with_id k sheet_data e :
  last (with_id k sheet_data) = Some e →
  e ∈ sheet_data ∧ ColaboradorSheet.matricula e = k.
Proof.
  intros H. apply last_Some in H as [l' H].
  assert (e ∈ with_id k sheet_data) as Hin by (rewrite H; set_solver).
  unfold with_id in Hin. by apply list_elem_of_filter in Hin as [? ?].
Qed.

Lemma with_id_nil k sheet_data :
  with_id k sheet_data = [] ↔
  ∀ e, e ∈ sheet_data → ColaboradorSheet.matricula e ≠ k.
Proof.
  unfold with_id. split.
  - intros H e Hin Heq.
    assert (e ∈ filter (λ e, ColaboradorSheet.matricula e = k) sheet_data) as Hf
      by (by apply list_elem_of_filter).
    rewrite H in Hf. by apply not_elem_of_nil in Hf.
  - intros H. induction sheet_data as [|e l IH]; [done|].
    rewrite filter_cons_False by (apply H; left).
    apply IH. intros e' Hin. apply H. by right.
Qed.

Lemma combine_length db_data sheet_data :
  length (combine_colaboradores_data db_data sheet_data) = length db_data.
Proof. by rewrite combine_as_map, length_map. Qed.

End Reconciler.

(** C2: for every authoritative and every external record set the combined
    output has exactly one record per authoritative record, in the
    authoritative order: its length is that of the authoritative input, and
    reading the four authoritative fields back off the output gives the
    authoritative input itself, so nothing is dropped and nothing that comes
    only from the external set is added. *)
Theorem C2_one_combined_record_per_authoritative
    (db_data : list ColaboradorDB.t) (sheet_data : list ColaboradorSheet.t) :
  length (combine_colaboradores_data db_data sheet_data) = length db_data ∧
  map authoritative_part (combine_colaboradores_data db_data sheet_data) = db_data.
Proof.
  split; [apply combine_length|]. rewrite combine_as_map.
  - induction db_data as [|a l IH]; [done|]. simpl.
    by rewrite authoritative_part_combine_one, IH.
Qed.

(** C3: the combined record of an authoritative record [a] (the one at the
    same position of the output) is [a]'s four fields with all three optional
    fields absent when no external record has the identifier [str(a.codigo)],
    and [a]'s four fields with the cargo, salario and admissao of an external
    record with that identifier when there is one (of that very record when
    it is the only one).  The example of the spec evaluates as stated. *)
Theorem C3_join_correct :
  (∀ (db_data : list ColaboradorDB.t) (sheet_data : list ColaboradorSheet.t)
     (i : nat) (a : ColaboradorDB.t),
      db_data !! i = Some a →
      ∃ c, combine_colaboradores_data db_data sheet_data !! i = Some c ∧
        ((∀ e, e ∈ sheet_data →
            ColaboradorSheet.matricula e ≠ str_of_int (ColaboradorDB.codigo a)) →
         c = unmatched a) ∧
        ((∃ e, e ∈ sheet_data ∧
            ColaboradorSheet.matricula e = str_of_int (ColaboradorDB.codigo a)) →
         ∃ e, e ∈ sheet_data ∧
            ColaboradorSheet.matricula e = str_of_int (ColaboradorDB.codigo a) ∧
            c = matched a e) ∧
        (∀ e, e ∈ sheet_data →
            ColaboradorSheet.matricula e = str_of_int (ColaboradorDB.codigo a) →
            (∀ e', e' ∈ sheet_data →
               ColaboradorSheet.matricula e' = str_of_int (ColaboradorDB.codigo a) →
               e' = e) →
            c = matched a e)) ∧
  combine_colaboradores_data [ana] [caixa "42"]
  = [ColaboradorCompleto.mk 42 "Ana" "111" "F"
       (Some "Caixa") (Some (FDec false 15000 (-1))) None] ∧
  combine_colaboradores_data [ana] [caixa "7"; caixa "420"]
  = [ColaboradorCompleto.mk 42 "Ana" "111" "F" None None None].
Proof.
  split; [|split; vm_compute; reflexivity].
  intros db_data sheet_data i a Hi.
  exists (combine_one (sheet_data_map sheet_data) a). split.
  { rewrite combine_as_map, list_lookup_fmap, Hi. done. }
  set (k := str_of_int (ColaboradorDB.codigo a)).
  split; [|split].
  - intros Hno. apply combine_one_unmatched. by apply with_id_nil.
  - intros (e & Hin & Hk).
    destruct (last (with_id k sheet_data)) as [e'|] eqn:Hlast.
    + exists e'. destruct (last_with_id _ _ _ Hlast) as [? ?].
      split_and!; [done..|]. by apply combine_one_matched.
    + apply last_None in Hlast. by destruct (proj1 (with_id_nil _ _) Hlast e).
  - intros e Hin Hk Huniq.
    destruct (last (with_id k sheet_data)) as [e'|] eqn:Hlast.
    + destruct (last_with_id _ _ _ Hlast) as [Hin' Hk'].
      rewrite <- (Huniq e' Hin' Hk'). by apply combine_one_matched.
    + apply last_None in Hlast. by destruct (proj1 (with_id_nil _ _) Hlast e).
Qed.

Lemma C3_join_correct_witness :
  ∃ c, combine_colaboradores_data [ana] [caixa "7"; caixa "42"] !! 0%nat = Some c ∧
       c = matched ana (caixa "42").
Proof.
  destruct (proj1 C3_join_correct [ana] [caixa "7"; caixa "42"] 0%nat ana eq_refl)
    as (c & Hc & _ & _ & Hunique).
  exists c. split; [exact Hc|]. apply Hunique.
  - right. left.
  - reflexivity.
  - intros e' Hin Hid. apply elem_of_cons in Hin as [->|Hin]; [discriminate Hid|].
    apply elem_of_cons in Hin as [->|Hin]; [reflexivity|].
    by apply elem_of_nil in Hin.
Defined.

(** C9: the lookup mapping built from the external records holds, under each
    identifier, the last record of the input that carries it; so with
    duplicates, whatever stands before the last one, the combined record of
    the matching authoritative record carries the last duplicate's cargo,
    salario and admissao.  The mapping is built without any check, by a total
    function: nothing is deduplicated beforehand and nothing can be raised. *)
Theorem C9_last_write_wins :
  (∀ (sheet_data : list ColaboradorSheet.t) (k : string),
      sheet_data_map sheet_data !! k = last (with_id k sheet_data)) ∧
  (∀ (db_data : list ColaboradorDB.t) (i : nat) (a : ColaboradorDB.t)
     (earlier later : list ColaboradorSheet.t) (e : ColaboradorSheet.t),
      db_data !! i = Some a →
      ColaboradorSheet.matricula e = str_of_int (ColaboradorDB.codigo a) →
      with_id (str_of_int (ColaboradorDB.codigo a)) later = [] →
      combine_colaboradores_data db_data (earlier ++ e :: later) !! i
      = Some (matched a e)) ∧
  combine_colaboradores_data [ana]
    [ColaboradorSheet.mk "42" (Some "Caixa") (Some (FDec false 1500 0)) None;
     ColaboradorSheet.mk "7" (Some "Gerente") None None;
     ColaboradorSheet.mk "42" (Some "Fiscal") (Some (FDec false 2000 0)) (Some "x")]
  = [ColaboradorCompleto.mk 42 "Ana" "111" "F"
       (Some "Fiscal") (Some (FDec false 2000 0)) (Some "x")].
Proof.
  split; [apply sheet_data_map_lookup|].
  split; [|vm_compute; reflexivity].
  intros db_data i a earlier later e Hi Hk Hlater.
  rewrite combine_as_map, list_lookup_fmap, Hi. simpl. f_equal.
  apply combine_one_matched. unfold with_id in *.
  rewrite filter_app, filter_cons_True by done.
  rewrite Hlater. by rewrite last_snoc.
Qed.

Lemma C9_last_write_wins_witness :
  combine_colaboradores_data [ana] ([caixa "42"; caixa "7"] ++ fiscal_42 :: [caixa "8"])
    !! 0%nat
  = Some (matched ana fiscal_42).
Proof.
  apply (proj1 (proj2 C9_last_write_wins)
           [ana] 0%nat ana [caixa "42"; caixa "7"] [caixa "8"] fiscal_42);
    reflexivity.
Defined.

(** ** The three operations *)

Lemma read_colaboradores_from_db_cases db :
  read_colaboradores_from_db db
  = match get_colaboradores_from_db db with
    | [] => HTTPException 500
    | colaboradores => Return colaboradores
    end.
Proof.
  unfold read_colaboradores_from_db.
  by destruct (get_colaboradores_from_db db).
Qed.

Lemma read_colaboradores_from_sheets_cases web sheet_url :
  truthy sheet_url = true →
  read_colaboradores_from_sheets web sheet_url
  = match get_colaboradores_from_google_sheets_csv (web sheet_url) with
    | [] => HTTPException 500
    | colaboradores => Return colaboradores
    end.
Proof.
  intros Hurl. unfold read_colaboradores_from_sheets. rewrite Hurl. simpl.
  by destruct (get_colaboradores_from_google_sheets_csv (web sheet_url)).
Qed.

Lemma get_colaboradores_completos_cases db web sheet_url :
  truthy sheet_url = true →
  get_colaboradores_completos db web sheet_url
  = match get_colaboradores_from_db db,
          get_colaboradores_from_google_sheets_csv (web sheet_url) with
    | [], _ => HTTPException 500
    | _, [] => HTTPException 500
    | db_data, sheet_data =>
        Return (combine_colaboradores_data db_data sheet_data)
    end.
Proof.
  intros Hurl. unfold get_colaboradores_completos. rewrite Hurl. simpl.
  destruct (get_colaboradores_from_db db); [done|].
  by destruct (get_colaboradores_from_google_sheets_csv (web sheet_url)).
Qed.

(** C4, as stated, fails: with a source that yields no record the two
    per-source operations raise [HTTPException(500)]; they do not return an
    empty sequence, although the service functions under them do. *)
Lemma C4_per_source_operations_fail_on_empty :
  get_colaboradores_from_db (Fetched []) = [] ∧
  read_colaboradores_from_db (Fetched []) = HTTPException 500 ∧
  read_colaboradores_from_db (Fetched []) ≠ Return [] ∧
  get_colaboradores_from_google_sheets_csv (empty_sheet "https://sheet") = [] ∧
  read_colaboradores_from_sheets empty_sheet "https://sheet" = HTTPException 500 ∧
  read_colaboradores_from_sheets empty_sheet "https://sheet" ≠ Return [].
Proof. by split_and!. Qed.

(** C4, amended: the service functions under the per-source operations
    return an empty sequence, and raise nothing, when their source cannot be
    read or holds no record; each per-source operation answers an empty
    sequence with [HTTPException(500)], exactly as the combined view does,
    and returns the records untouched when there is at least one. *)
Theorem C4_every_operation_fails_on_empty_source :
  (get_colaboradores_from_db ConnectFailed = [] ∧
   get_colaboradores_from_db QueryFailed = [] ∧
   get_colaboradores_from_db (Fetched []) = [] ∧
   get_colaboradores_from_google_sheets_csv RequestException = [] ∧
   get_colaboradores_from_google_sheets_csv EmptyDataError = [] ∧
   get_colaboradores_from_google_sheets_csv OtherError = [] ∧
   get_colaboradores_from_google_sheets_csv (Loaded empty_frame) = []) ∧
  (∀ db,
      (get_colaboradores_from_db db = [] →
       read_colaboradores_from_db db = HTTPException 500) ∧
      (get_colaboradores_from_db db ≠ [] →
       read_colaboradores_from_db db = Return (get_colaboradores_from_db db))) ∧
  (∀ web sheet_url, sheet_url ≠ "" →
      (get_colaboradores_from_google_sheets_csv (web sheet_url) = [] →
       read_colaboradores_from_sheets web sheet_url = HTTPException 500) ∧
      (get_colaboradores_from_google_sheets_csv (web sheet_url) ≠ [] →
       read_colaboradores_from_sheets web sheet_url
       = Return (get_colaboradores_from_google_sheets_csv (web sheet_url)))) ∧
  (∀ db web sheet_url, sheet_url ≠ "" →
      get_colaboradores_from_db db = [] ∨
      get_colaboradores_from_google_sheets_csv (web sheet_url) = [] →
      get_colaboradores_completos db web sheet_url = HTTPException 500).
Proof.
  split; [by split_and!|]. split; [|split].
  - intros db. rewrite read_colaboradores_from_db_cases.
    by destruct (get_colaboradores_from_db db).
  - intros web sheet_url Hurl.
    rewrite read_colaboradores_from_sheets_cases
      by (unfold truthy; by destruct (String.eqb_spec sheet_url "")).
    by destruct (get_colaboradores_from_google_sheets_csv (web sheet_url)).
  - intros db web sheet_url Hurl Hempty.
    rewrite get_colaboradores_completos_cases
      by (unfold truthy; by destruct (String.eqb_spec sheet_url "")).
    destruct Hempty as [-> | ->]; [done|].
    by destruct (get_colaboradores_from_db db).
Qed.

Lemma C4_every_operation_fails_on_empty_source_witness :
  read_colaboradores_from_db ConnectFailed = HTTPException 500 ∧
  read_colaboradores_from_sheets (λ _, RequestException) "https://sheet"
  = HTTPException 500.
Proof.
  destruct C4_every_operation_fails_on_empty_source as (_ & Hdb & Hsheet & _).
  split.
  - apply (proj1 (Hdb ConnectFailed)). reflexivity.
  - apply (proj1 (Hsheet (λ _, RequestException) "https://sheet" ltac:(discriminate))).
    reflexivity.
Defined.

(** ** Forward fill *)

Section ForwardFill.

Implicit Types (c seen : cell) (series : list cell).

Lemma ffill_length seen series : length (ffill seen series) = length series.
Proof.
  revert seen. induction series as [|c t IH]; intros seen; [done|].
  simpl. destruct (notna c); simpl; by rewrite IH.
Qed.

Lemma ffill_lookup seen series i c :
  series !! i = Some c →
  ffill seen series !! i
  = Some (if notna c then c
          else default seen (last (filter (λ c, notna c) (take i series)))).
Proof.
  revert seen i. induction series as [|c0 t IH]; intros seen i Hi; [done|].
  destruct i as [|j]; simpl in *.
  - injection Hi as ->. by destruct (notna c).
  - destruct (notna c0) eqn:Hc0; simpl.
    + rewrite (IH c0 j Hi). f_equal. destruct (notna c); [done|].
      rewrite filter_cons_True by (by rewrite Hc0). rewrite last_cons.
      by destruct (last _).
    + rewrite (IH seen j Hi). f_equal. destruct (notna c); [done|].
      rewrite filter_cons_False; [done|]. rewrite Hc0. by intros [].
Qed.

Lemma fillna_ffill_lookup series i c :
  series !! i = Some c →
  fillna_ffill series !! i
  = Some (if notna c then c else last_valid (take i series)).
Proof. apply ffill_lookup. Qed.

Lemma ffill_all_valid seen series :
  Forall (λ c, notna c) series → ffill seen series = series.
Proof.
  intros H. revert seen. induction H as [|c t Hc _ IH]; intros seen; [done|].
  simpl. destruct (notna c); [|done]. by rewrite IH.
Qed.

End ForwardFill.

(** ** Frames *)

Section Frames.

Implicit Types (df : DataFrame) (row r : Row) (col : string).

Lemma loc_set_loc_eq r col v :
  col ∈ merged_columns → loc (set_loc r col v) col = v.
Proof.
  unfold merged_columns. rewrite !elem_of_cons, elem_of_nil.
  intros [->|[->|[->|[]]]]; by destruct r.
Qed.

Lemma loc_set_loc_ne r col col' v :
  col ≠ col' → loc (set_loc r col v) col' = loc r col'.
Proof.
  intros Hne. unfold loc, set_loc.
  repeat match goal with
         | |- context [String.eqb ?a ?b] =>
             destruct (String.eqb_spec a b); subst; simpl in *; try done
         end.
Qed.

Lemma column_set_column_eq df col values :
  col ∈ merged_columns → length values = length (rows df) →
  column (set_column df col values) col = values.
Proof.
  intros Hcol. unfold column, set_column. simpl.
  generalize (rows df). intros rs. revert values.
  induction rs as [|r rs IH]; intros [|v values] Hlen; simpl in *; try done.
  rewrite loc_set_loc_eq by done. f_equal. apply IH. lia.
Qed.

Lemma column_set_column_ne df col col' values :
  col ≠ col' → length values = length (rows df) →
  column (set_column df col values) col' = column df col'.
Proof.
  intros Hne. unfold column, set_column. simpl.
  generalize (rows df). intros rs. revert values.
  induction rs as [|r rs IH]; intros [|v values] Hlen; simpl in *; try done.
  rewrite loc_set_loc_ne by done. f_equal. apply IH. lia.
Qed.

Lemma length_column df col : length (column df col) = length (rows df).
Proof. unfold column. by rewrite length_map. Qed.

Lemma columns_fill_column df col : columns (fill_column df col) = columns df.
Proof. unfold fill_column. by case_bool_decide. Qed.

Lemma length_rows_fill_column df col :
  length (rows (fill_column df col)) = length (rows df).
Proof.
  unfold fill_column. case_bool_decide; [|done]. simpl.
  rewrite length_zip_with_l_eq; [done|].
  unfold fillna_ffill. by rewrite ffill_length, length_column.
Qed.

Lemma column_fill_column_eq df col :
  col ∈ merged_columns →
  column (fill_column df col) col
  = if bool_decide (col ∈ columns df) then fillna_ffill (column df col)
    else column df col.
Proof.
  intros Hcol. unfold fill_column. case_bool_decide; [|done].
  apply column_set_column_eq; [done|].
  unfold fillna_ffill. by rewrite ffill_length, length_column.
Qed.

Lemma column_fill_column_ne df col col' :
  col ≠ col' → column (fill_column df col) col' = column df col'.
Proof.
  intros Hne. unfold fill_column. case_bool_decide; [|done].
  apply column_set_column_ne; [done|].
  unfold fillna_ffill. by rewrite ffill_length, length_column.
Qed.

Lemma columns_fill_merged df : columns (fill_merged df) = columns df.
Proof. unfold fill_merged. simpl. by rewrite !columns_fill_column. Qed.

Lemma length_rows_fill_merged df :
  length (rows (fill_merged df)) = length (rows df).
Proof. unfold fill_merged. simpl. by rewrite !length_rows_fill_column. Qed.

(** Each of the three columns is filled on its own, if the frame has it. *)
Lemma column_fill_merged df col :
  col ∈ merged_columns →
  column (fill_merged df) col
  = if bool_decide (col ∈ columns df) then fillna_ffill (column df col)
    else column df col.
Proof.
  intros Hcol. unfold fill_merged. simpl.
  revert Hcol. unfold merged_columns at 1. rewrite !elem_of_cons, elem_of_nil.
  intros [->|[->|[->|[]]]].
  - rewrite !column_fill_column_ne by done.
    rewrite column_fill_column_eq by (unfold merged_columns; set_solver). done.
  - rewrite column_fill_column_ne by done.
    rewrite column_fill_column_eq by (unfold merged_columns; set_solver).
    rewrite columns_fill_column. by rewrite column_fill_column_ne.
  - rewrite column_fill_column_eq by (unfold merged_columns; set_solver).
    rewrite !columns_fill_column. by rewrite !column_fill_column_ne.
Qed.

Lemma dropna_Ok df col :
  col ∈ columns df →
  dropna df col
  = Ok (mkDataFrame (columns df) (filter (λ r, notna (loc r col)) (rows df))).
Proof. intros H. unfold dropna. by rewrite bool_decide_eq_true_2. Qed.

Lemma dropna_KeyError df col :
  col ∉ columns df → dropna df col = Raise KeyError.
Proof. intros H. unfold dropna. by rewrite bool_decide_eq_false_2. Qed.

Lemma column_filter_notna df col :
  column (mkDataFrame (columns df) (filter (λ r, notna (loc r col)) (rows df))) col
  = filter (λ c, notna c) (column df col).
Proof.
  unfold column. simpl. induction (rows df) as [|r rs IH]; [done|]. simpl.
  destruct (notna (loc r col)) eqn:Hr.
  - rewrite !filter_cons_True by (by rewrite Hr). simpl. by rewrite IH.
  - rewrite !filter_cons_False by (rewrite Hr; by intros []). done.
Qed.

Lemma Forall_filter_notna (series : list cell) :
  Forall (λ c, notna c) (filter (λ c, notna c) series).
Proof.
  apply Forall_forall. intros c Hc. by apply list_elem_of_filter in Hc as [? _].
Qed.

(** After [dropna] no identifier is blank, so filling that column changes
    nothing. *)
Lemma repair_matricula df :
  "matricula" ∈ columns df →
  ∃ df', repair df = Ok df' ∧ columns df' = columns df ∧
    column df' "matricula" = filter (λ c, notna c) (column df "matricula").
Proof.
  intros Hcol. unfold repair. rewrite dropna_Ok by done.
  eexists. split; [reflexivity|]. split; [by rewrite columns_fill_merged|].
  rewrite column_fill_merged by (unfold merged_columns; set_solver).
  simpl. rewrite column_filter_notna. case_bool_decide; [|done].
  apply ffill_all_valid, Forall_filter_notna.
Qed.

End Frames.

(** ** Row conversion and the loop over the rows *)

Section Conversion.

Implicit Types (cols : list string) (row r : Row).

Lemma pretty_N_go_nonempty (x : N) (s : string) : s ≠ "" → pretty_N_go x s ≠ "".
Proof.
  revert s. induction (N.lt_wf_0 x) as [x _ IH]; intros s Hs.
  destruct (decide (x = 0%N)) as [->|Hx]; [by rewrite pretty_N_go_0|].
  rewrite pretty_N_go_step by lia. apply IH; [|done].
  apply N.div_lt; lia.
Qed.

(** [str] of an int is never the empty string: the test of line 117 always
    passes. *)
Lemma truthy_str_of_int z : truthy (str_of_int z) = true.
Proof.
  assert (∀ p, pretty (N.pos p) ≠ "") as Hpos.
  { intros p. unfold pretty, pretty_N. rewrite decide_False by done.
    rewrite pretty_N_go_step by lia. by apply pretty_N_go_nonempty. }
  unfold truthy, str_of_int, pretty, pretty_Z.
  destruct z as [|p|p]; [done| |done].
  destruct (String.eqb_spec (pretty p) ""); [|done]. by destruct (Hpos p).
Qed.

Lemma getitem_Ok cols r col :
  col ∈ cols → getitem cols r col = Ok (loc r col).
Proof. intros H. unfold getitem. by rewrite bool_decide_eq_true_2. Qed.

Lemma getitem_KeyError cols r col :
  col ∉ cols → getitem cols r col = Raise KeyError.
Proof. intros H. unfold getitem. by rewrite bool_decide_eq_false_2. Qed.

(** The body of the [try] when the frame has the three columns. *)
Lemma convert_row_columns cols r :
  "matricula" ∈ cols → "salario" ∈ cols → "cargo_contabil" ∈ cols →
  convert_row cols r
  = match matricula_val (c_matricula r) with
    | Raise e => Raise e
    | Ok mv =>
        match salario_val (c_salario r) with
        | Raise e => Raise e
        | Ok sv =>
            match mv with
            | Some m =>
                if truthy m then
                  Ok (Some (ColaboradorSheet.mk m
                              (if notna (c_cargo_contabil r)
                               then Some (py_str (c_cargo_contabil r)) else None)
                              sv None))
                else Ok None
            | None => Ok None
            end
        end
    end.
Proof.
  intros Hm Hs Hc. unfold convert_row.
  rewrite !getitem_Ok by done.
  change (loc r "matricula") with (c_matricula r).
  change (loc r "salario") with (c_salario r).
  change (loc r "cargo_contabil") with (c_cargo_contabil r).
  unfold mbind, result_bind, bind.
  destruct (matricula_val (c_matricula r)) as [mv|]; [|done].
  destruct (salario_val (c_salario r)) as [sv|]; [|done].
  destruct mv as [m|]; [|done]. by destruct (truthy m).
Qed.

Lemma matricula_val_id_of (m : cell) (mv : string) :
  matricula_val m = Ok (Some mv) ↔ id_of m = Some mv.
Proof.
  unfold matricula_val, id_of, mbind, result_bind, bind.
  destruct (notna m); [|done]. destruct (py_int m); naive_solver.
Qed.

(** What a row that yields a record looks like. *)
Lemma convert_row_Some cols r (c : ColaboradorSheet.t) :
  convert_row cols r = Ok (Some c) →
  id_of (c_matricula r) = Some (ColaboradorSheet.matricula c) ∧
  salario_val (c_salario r) = Ok (ColaboradorSheet.salario c) ∧
  ColaboradorSheet.cargo_contabil c
  = (if notna (c_cargo_contabil r) then Some (py_str (c_cargo_contabil r)) else None) ∧
  ColaboradorSheet.admissao c = None.
Proof.
  destruct (decide ("matricula" ∈ cols)) as [Hm|Hm];
    [|unfold convert_row; by rewrite (getitem_KeyError _ _ _ Hm)].
  destruct (decide ("salario" ∈ cols)) as [Hs|Hs].
  2:{ unfold convert_row. rewrite (getitem_Ok _ _ _ Hm), (getitem_KeyError _ _ _ Hs).
      unfold mbind, result_bind, bind. by destruct (matricula_val _). }
  destruct (decide ("cargo_contabil" ∈ cols)) as [Hc|Hc].
  2:{ unfold convert_row.
      rewrite (getitem_Ok _ _ _ Hm), (getitem_Ok _ _ _ Hs), (getitem_KeyError _ _ _ Hc).
      unfold mbind, result_bind, bind.
      destruct (matricula_val _) as [[m|]|]; try done;
        destruct (salario_val _); try done; by destruct (truthy m). }
  rewrite convert_row_columns by done.
  destruct (matricula_val (c_matricula r)) as [[m|]|] eqn:Hmv; try done;
    destruct (salario_val (c_salario r)) as [sv|] eqn:Hsv; try done.
  destruct (truthy m); [|done]. intros [= <-]. simpl.
  by apply matricula_val_id_of in Hmv.
Qed.

Lemma iterrows_Ok cols rs acc l :
  iterrows cols rs acc = Ok l → l = acc ++ omap (record_of cols) rs.
Proof.
  revert acc. induction rs as [|r rs IH]; intros acc; simpl.
  - intros [= <-]. by rewrite app_nil_r.
  - unfold record_of at 1.
    destruct (convert_row cols r) as [[c|]|[]]; try done; intros H;
      apply IH in H; subst l; by rewrite <- ?app_assoc.
Qed.

(** Only an exception other than [KeyError] and [ValueError] leaves the loop. *)
Lemma iterrows_total cols rs acc :
  (∀ r, r ∈ rs → convert_row cols r ≠ Raise OverflowError) →
  iterrows cols rs acc = Ok (acc ++ omap (record_of cols) rs).
Proof.
  revert acc. induction rs as [|r rs IH]; intros acc Hrs; simpl.
  - by rewrite app_nil_r.
  - assert (convert_row cols r ≠ Raise OverflowError) as Hr by (apply Hrs; left).
    assert (∀ r', r' ∈ rs → convert_row cols r' ≠ Raise OverflowError) as Hrs'
      by (intros r' ?; apply Hrs; by right).
    unfold record_of at 1.
    destruct (convert_row cols r) as [[c|]|[]]; try done;
      rewrite IH by done; by rewrite <- ?app_assoc.
Qed.

Lemma iterrows_Raise cols rs acc e :
  iterrows cols rs acc = Raise e → e = OverflowError.
Proof.
  revert acc. induction rs as [|r rs IH]; intros acc; simpl; [done|].
  destruct (convert_row cols r) as [[c|]|[]]; try apply IH. by intros [= <-].
Qed.

Lemma iterrows_skip cols before r after acc :
  record_of cols r = None → convert_row cols r ≠ Raise OverflowError →
  iterrows cols (before ++ r :: after) acc = iterrows cols (before ++ after) acc.
Proof.
  intros Hnone Hr. revert acc.
  induction before as [|r0 rs IH]; intros acc; simpl.
  - unfold record_of in Hnone. by destruct (convert_row cols r) as [[c|]|[]].
  - destruct (convert_row cols r0) as [[c|]|[]]; by rewrite ?IH.
Qed.

Lemma iterrows_append cols r rest acc c :
  convert_row cols r = Ok (Some c) →
  iterrows cols (r :: rest) acc = iterrows cols rest (acc ++ [c]).
Proof. intros H. simpl. by rewrite H. Qed.



Lemma omap_map {A B C} (f : A → B) (g : B → option C) (l : list A) :
  omap g (map f l) = omap (λ x, g (f x)) l.
Proof.
  induction l as [|x l IH]; [done|]. simpl.
  destruct (g (f x)); [f_equal|]; exact IH.
Qed.

Lemma map_omap {A B C} (f : A → option B) (g : B → C) (l : list A) :
  map g (omap f l) = omap (λ x, g <$> f x) l.
Proof.
  induction l as [|x l IH]; [done|]. simpl.
  destruct (f x); simpl; [f_equal|]; exact IH.
Qed.


End Conversion.

(** ** Parsing runs of digits *)

Section Digits.

Implicit Types (s a b : string) (c : ascii).

Lemma append_nil_l s : "" +:+ s = s.
Proof. reflexivity. Qed.

Lemma append_cons c a b : String c a +:+ b = String c (a +:+ b).
Proof. reflexivity. Qed.

Lemma append_empty_r s : s +:+ "" = s.
Proof. induction s as [|c t IH]; [done|]. by rewrite append_cons, IH. Qed.

Lemma is_digit_inv c :
  is_digit c = true →
  (c = "0" ∨ c = "1" ∨ c = "2" ∨ c = "3" ∨ c = "4" ∨
   c = "5" ∨ c = "6" ∨ c = "7" ∨ c = "8" ∨ c = "9")%char.
Proof.
  destruct c as [[] [] [] [] [] [] [] []]; intros H;
    vm_compute in H; try discriminate H;
    repeat ((left; reflexivity) || right); reflexivity.
Qed.

Lemma all_digits_cons c t :
  all_digits (String c t) = true ↔ is_digit c = true ∧ all_digits t = true.
Proof. simpl. apply andb_true_iff. Qed.

Lemma all_digits_app a b :
  all_digits a = true → all_digits b = true → all_digits (a +:+ b) = true.
Proof.
  intros Ha Hb. induction a as [|c t IH]; [done|].
  apply all_digits_cons in Ha as [Hc Ht]. rewrite append_cons.
  apply all_digits_cons. split; [done|]. by apply IH.
Qed.

Lemma replace_all_digits old new s :
  is_digit old = false → all_digits s = true → replace old new s = s.
Proof.
  intros Hold. induction s as [|c t IH]; [done|]. intros Hs.
  apply all_digits_cons in Hs as [Hc Ht]. simpl.
  destruct (Ascii.eqb_spec c old) as [->|_]; [congruence|]. by rewrite IH.
Qed.

(** Removing the dots of a dot-decimal text joins its two runs of digits. *)
Lemma replace_dot_decimal a b :
  all_digits a = true → all_digits b = true →
  replace "." "" (a +:+ "." +:+ b) = a +:+ b.
Proof.
  intros Ha Hb. change ("." +:+ b) with (String "." b).
  induction a as [|c t IH].
  - rewrite !append_nil_l. simpl. rewrite append_nil_l.
    by apply replace_all_digits.
  - apply all_digits_cons in Ha as [Hc Ht]. rewrite !append_cons. simpl.
    destruct (Ascii.eqb_spec c ".") as [->|_]; [done|]. by rewrite IH.
Qed.

Lemma remove_underscores_digits prev s :
  prev ≠ "_"%char → all_digits s = true → remove_underscores prev s = Some s.
Proof.
  revert prev. induction s as [|c t IH]; intros prev Hprev Hs; simpl.
  - by destruct (Ascii.eqb_spec prev "_").
  - apply all_digits_cons in Hs as [Hc Ht].
    destruct (Ascii.eqb_spec c "_") as [->|Hne]; [done|].
    rewrite Hc, andb_false_r. by rewrite IH.
Qed.

Lemma lstrip_digits s : all_digits s = true → lstrip s = s.
Proof.
  destruct s as [|c t]; [done|]. intros Hs.
  apply all_digits_cons in Hs as [Hc _]. simpl.
  apply is_digit_inv in Hc.
  destruct Hc as [->|[->|[->|[->|[->|[->|[->|[->|[->| ->]]]]]]]]]; reflexivity.
Qed.

Lemma rstrip_digits s : all_digits s = true → rstrip s = s.
Proof.
  induction s as [|c t IH]; [done|]. intros Hs.
  apply all_digits_cons in Hs as [Hc Ht]. simpl. rewrite IH by done.
  destruct t; [|done].
  apply is_digit_inv in Hc.
  destruct Hc as [->|[->|[->|[->|[->|[->|[->|[->|[->| ->]]]]]]]]]; reflexivity.
Qed.

Lemma split_sign_digits s : all_digits s = true → split_sign s = (false, s).
Proof.
  destruct s as [|c t]; [done|]. intros Hs.
  apply all_digits_cons in Hs as [Hc _].
  apply is_digit_inv in Hc.
  destruct Hc as [->|[->|[->|[->|[->|[->|[->|[->|[->| ->]]]]]]]]]; reflexivity.
Qed.

(** A text that starts with a digit is none of [inf], [infinity], [nan]. *)
Lemma digits_not_special s :
  all_digits s = true → s ≠ "" →
  String.eqb (lower_str s) "inf" = false ∧
  String.eqb (lower_str s) "infinity" = false ∧
  String.eqb (lower_str s) "nan" = false.
Proof.
  destruct s as [|c t]; [done|]. intros Hs _.
  apply all_digits_cons in Hs as [Hc _].
  apply is_digit_inv in Hc.
  destruct Hc as [->|[->|[->|[->|[->|[->|[->|[->|[->| ->]]]]]]]]];
    split_and!; reflexivity.
Qed.

Lemma span_digits_all s : all_digits s = true → span_digits s = (s, "").
Proof.
  induction s as [|c t IH]; [done|]. intros Hs.
  apply all_digits_cons in Hs as [Hc Ht]. simpl. by rewrite Hc, IH.
Qed.

Lemma parse_decimal_digits s :
  all_digits s = true → s ≠ "" →
  parse_decimal s = Some (digits_value 0 s, 0%Z).
Proof.
  intros Hs Hne. unfold parse_decimal. rewrite span_digits_all by done.
  rewrite append_empty_r. destruct s as [|c t]; done.
Qed.

(** [float] of a run of digits is the integer they write. *)
Lemma float_of_str_digits s :
  all_digits s = true → s ≠ "" →
  float_of_str s = Ok (make_float false (digits_value 0 s) 0).
Proof.
  intros Hs Hne. unfold float_of_str.
  rewrite remove_underscores_digits by done.
  unfold strip. rewrite lstrip_digits, rstrip_digits, split_sign_digits by done.
  destruct (digits_not_special s Hs Hne) as (-> & -> & ->). simpl.
  by rewrite parse_decimal_digits.
Qed.

Lemma replace_dot_chars s :
  list_ascii_of_string (replace "." "" s)
  = filter (λ c, c ≠ "."%char) (list_ascii_of_string s).
Proof.
  induction s as [|c t IH]; [done|]. simpl.
  destruct (Ascii.eqb_spec c ".") as [->|Hne].
  - rewrite filter_cons_False by (by intros []). by rewrite append_nil_l.
  - rewrite filter_cons_True by done. simpl. by rewrite IH.
Qed.

Lemma replace_comma_chars s :
  list_ascii_of_string (replace "," "." s)
  = map (λ c, if Ascii.eqb c "," then "."%char else c) (list_ascii_of_string s).
Proof.
  induction s as [|c t IH]; [done|]. simpl.
  destruct (Ascii.eqb_spec c ",");
    rewrite ?append_cons, ?append_nil_l; simpl; by rewrite IH.
Qed.

Lemma int_body_digits (acc : N) s :
  all_digits s = true → int_body false acc s = Some (digits_value acc s).
Proof.
  revert acc. induction s as [|c t IH]; intros acc Hs; [done|].
  apply all_digits_cons in Hs as [Hc Ht]. simpl. rewrite Hc. by apply IH.
Qed.

Lemma int_of_str_digits s :
  all_digits s = true → s ≠ "" →
  int_of_str s = Ok (Z.of_N (digits_value 0 s)).
Proof.
  intros Hs Hne. unfold int_of_str, strip.
  rewrite lstrip_digits, rstrip_digits, split_sign_digits by done.
  destruct s as [|c t]; [done|].
  pose proof Hs as Hs'. apply all_digits_cons in Hs' as [-> _].
  by rewrite int_body_digits.
Qed.

Lemma int_of_str_minus_digits s :
  all_digits s = true → s ≠ "" →
  int_of_str ("-" +:+ s) = Ok (- Z.of_N (digits_value 0 s))%Z.
Proof.
  intros Hs Hne. unfold int_of_str, strip.
  change ("-" +:+ s) with (String "-" s).
  change (lstrip (String "-" s)) with (String "-" s).
  assert (rstrip (String "-" s) = String "-" s) as ->.
  { simpl. rewrite rstrip_digits by done. by destruct s. }
  simpl. destruct s as [|c t]; [done|].
  pose proof Hs as Hs'. apply all_digits_cons in Hs' as [-> _].
  by rewrite int_body_digits.
Qed.

End Digits.

(** ** Field coercion *)

Lemma convert_row_bad_salary (cols : list string) (row : Row) :
  notna (c_salario row) = true →
  py_float (replace "," "." (replace "." "" (py_str (c_salario row))))
    = Raise ValueError →
  py_int (c_matricula row) ≠ Raise OverflowError →
  convert_row cols row = Raise KeyError ∨ convert_row cols row = Raise ValueError.
Proof.
  intros Hs Hfloat Hint.
  destruct (decide ("matricula" ∈ cols)) as [Hm|Hm];
    [|left; unfold convert_row; by rewrite (getitem_KeyError _ _ _ Hm)].
  unfold convert_row. rewrite (getitem_Ok _ _ _ Hm).
  change (loc row "matricula") with (c_matricula row).
  assert (matricula_val (c_matricula row) = Raise KeyError ∨
          matricula_val (c_matricula row) = Raise ValueError ∨
          ∃ mv, matricula_val (c_matricula row) = Ok mv) as Hmv.
  { unfold matricula_val, mbind, result_bind, bind.
    destruct (notna (c_matricula row)); [|eauto].
    destruct (py_int (c_matricula row)) as [z|[]];
      [eauto|eauto|eauto|by destruct Hint]. }
  unfold mbind, result_bind, bind.
  destruct Hmv as [H|[H|[mv H]]]; rewrite H; [by left|by right|].
  destruct (decide ("salario" ∈ cols)) as [Hc|Hc];
    [|left; by rewrite (getitem_KeyError _ _ _ Hc)].
  rewrite (getitem_Ok _ _ _ Hc).
  change (loc row "salario") with (c_salario row).
  right. unfold salario_val. rewrite Hs.
  unfold mbind, result_bind, bind. by rewrite Hfloat.
Qed.

(** C7, at the failing input: the first row has salary text that [float]
    cannot parse and an infinite float as identifier.  [int] of the
    identifier raises [OverflowError] at line 114, before the salary is
    looked at; the handlers of lines 124-129 catch [KeyError] and
    [ValueError] only, so the row is not skipped: the loop is left, the row
    after it is not processed and the whole external set comes back empty,
    although the frame without that row yields a record. *)
Lemma C7_overflow_ends_the_loop :
  py_float (replace "," "." (replace "." "" (py_str (Str "abc")))) = Raise ValueError ∧
  get_colaboradores_from_google_sheets_csv (Loaded overflow_frame) = [] ∧
  get_colaboradores_from_google_sheets_csv (Loaded overflow_frame_rest)
  = [ColaboradorSheet.mk "2" (Some "Fiscal") (Some (FDec false 150000 (-2))) None].
Proof. split_and!; vm_compute; reflexivity. Qed.

(** The sibling path: a row whose salary text [float] cannot parse, and whose
    identifier does not make [int] raise [OverflowError], raises [KeyError]
    or [ValueError] and is skipped; the loop goes on as if the row were not
    there, for the rows before it and after it alike, and so does the whole
    fetch. *)
Lemma bad_salary_row_is_skipped (cols : list string) (row : Row) :
  notna (c_salario row) = true →
  py_float (replace "," "." (replace "." "" (py_str (c_salario row))))
    = Raise ValueError →
  py_int (c_matricula row) ≠ Raise OverflowError →
  record_of cols row = None ∧
  (∀ before after acc,
      iterrows cols (before ++ row :: after) acc
      = iterrows cols (before ++ after) acc) ∧
  (∀ df df' before after,
      repair df = Ok df' → columns df' = cols → rows df' = before ++ row :: after →
      get_colaboradores_from_google_sheets_csv (Loaded df)
      = match iterrows cols (before ++ after) [] with
        | Ok colaboradores_sheet => colaboradores_sheet
        | Raise _ => []
        end).
Proof.
  intros Hs Hfloat Hint.
  pose proof (convert_row_bad_salary cols row Hs Hfloat Hint) as Hrow.
  assert (record_of cols row = None) as Hnone
    by (unfold record_of; by destruct Hrow as [-> | ->]).
  assert (convert_row cols row ≠ Raise OverflowError) as Hno
    by (by destruct Hrow as [-> | ->]).
  split; [done|]. split.
  - intros before after acc. by apply iterrows_skip.
  - intros df df' before after Hrep Hcols Hrows. simpl.
    unfold clean_frame. rewrite Hrep. simpl. rewrite Hcols, Hrows.
    by rewrite iterrows_skip.
Qed.

Example bad_salary_row_skipped :
  record_of merged_columns bad_salary_row = None ∧
  ∀ before after acc,
    iterrows merged_columns (before ++ bad_salary_row :: after) acc
    = iterrows merged_columns (before ++ after) acc.
Proof.
  destruct (bad_salary_row_is_skipped merged_columns bad_salary_row)
    as (Hnone & Hskip & _).
  - reflexivity.
  - vm_compute. reflexivity.
  - vm_compute. discriminate.
  - by split.
Qed.



(** C6: for a salary cell that is not blank the coercion takes the text of
    the cell, drops every ['.'] from it, turns every [','] into ['.'] and
    gives the result to [float]; so ["1.234,56"] becomes 1234.56 and
    ["500,00"] becomes 500.00.  A salary cell that is blank when the row is
    coerced gives no salary (None, not a number), and a row with such a cell
    and an identifier that converts still yields its record, which the loop
    appends. *)
Theorem C6_salary_coercion :
  (∀ s, list_ascii_of_string (replace "." "" s)
        = filter (λ c, c ≠ "."%char) (list_ascii_of_string s)) ∧
  (∀ s, list_ascii_of_string (replace "," "." s)
        = map (λ c, if Ascii.eqb c "," then "."%char else c)
              (list_ascii_of_string s)) ∧
  (∀ s : cell, notna s = true →
      salario_val s
      = match py_float (replace "," "." (replace "." "" (py_str s))) with
        | Ok x => Ok (Some x)
        | Raise e => Raise e
        end) ∧
  salario_val (Str "1.234,56") = Ok (Some (FDec false 123456 (-2))) ∧
  salario_val (Str "500,00") = Ok (Some (FDec false 50000 (-2))) ∧
  (∀ s : cell, notna s = false → salario_val s = Ok None) ∧
  get_colaboradores_from_google_sheets_csv (Loaded blank_salary_frame)
  = [ColaboradorSheet.mk "5" (Some "Caixa") None None] ∧
  (∀ cols row z,
      "matricula" ∈ cols → "salario" ∈ cols → "cargo_contabil" ∈ cols →
      notna (c_matricula row) = true → py_int (c_matricula row) = Ok z →
      notna (c_salario row) = false →
      let c := ColaboradorSheet.mk (str_of_int z)
                 (if notna (c_cargo_contabil row)
                  then Some (py_str (c_cargo_contabil row)) else None)
                 None None in
      convert_row cols row = Ok (Some c) ∧
      ∀ rest acc, iterrows cols (row :: rest) acc = iterrows cols rest (acc ++ [c])).
Proof.
  split; [apply replace_dot_chars|]. split; [apply replace_comma_chars|].
  split; [|split; [vm_compute; reflexivity|split; [vm_compute; reflexivity|split]]].
  - intros s Hs. unfold salario_val. by rewrite Hs.
  - intros s Hs. unfold salario_val. by rewrite Hs.
  - split; [vm_compute; reflexivity|].
    intros cols row z Hm Hs Hc Hna Hint Hblank c.
    assert (convert_row cols row = Ok (Some c)) as Hrow.
    { rewrite convert_row_columns by done.
      unfold matricula_val, salario_val. rewrite Hna, Hint, Hblank. simpl.
      by rewrite truthy_str_of_int. }
    split; [done|]. intros rest acc. by apply iterrows_append.
Qed.

Lemma C6_salary_coercion_witness :
  convert_row merged_columns blank_salary_row
  = Ok (Some (ColaboradorSheet.mk "5" (Some "Caixa") None None)).
Proof.
  destruct C6_salary_coercion as (_ & _ & _ & _ & _ & _ & _ & Hblank).
  apply (Hblank merged_columns blank_salary_row 5%Z);
    unfold merged_columns; try reflexivity.
  - left.
  - right. right. left.
  - right. left.
Defined.

(** C10: the dots are removed whatever the text is, so a salary cell whose
    text is already dot-decimal (digits, a dot, digits, no comma) coerces to
    the float of the integer written by all its digits: ["1500.0"] gives
    15000.0 and
    ["1234.56"] gives 123456.0, which are not 1500.0 and 1234.56; a float cell
    1500.0, whose text is ["1500.0"], gives 15000.0 as well. *)
Theorem C10_dot_decimal_salary_is_misscaled :
  (∀ (s : cell) (a b : string),
      notna s = true → py_str s = a +:+ "." +:+ b →
      all_digits a = true → all_digits b = true → a +:+ b ≠ "" →
      salario_val s = Ok (Some (make_float false (digits_value 0 (a +:+ b)) 0))) ∧
  salario_val (Str "1500.0") = Ok (Some (FDec false 15000 0)) ∧
  salario_val (Str "1234.56") = Ok (Some (FDec false 123456 0)) ∧
  salario_val (Float (FDec false 15000 (-1))) = Ok (Some (FDec false 15000 0)) ∧
  float_eqb (FDec false 15000 0) (FDec false 15000 (-1)) = false ∧
  float_eqb (FDec false 123456 0) (FDec false 123456 (-2)) = false.
Proof.
  split; [|split_and!; vm_compute; reflexivity].
  intros s a b Hs Hstr Ha Hb Hne. unfold salario_val. rewrite Hs, Hstr.
  rewrite replace_dot_decimal by done.
  rewrite replace_all_digits by (done || by apply all_digits_app).
  unfold py_float. rewrite float_of_str_digits by (done || by apply all_digits_app).
  done.
Qed.

Lemma C10_dot_decimal_salary_is_misscaled_witness :
  salario_val (Str "0012.50")
  = Ok (Some (make_float false (digits_value 0 ("0012" +:+ "50")) 0)).
Proof.
  apply (proj1 C10_dot_decimal_salary_is_misscaled (Str "0012.50") "0012" "50");
    try reflexivity.
  discriminate.
Defined.

(** ** Merged-cell repair *)

(** C1, as stated, fails: [dropna] runs before the fill, so the blank second
    row of the example is gone when the fill runs; the repaired frame has two
    rows, the second one being the third row of the input, and no record
    stands for the blank row. *)
Lemma C1_blank_row_is_dropped_before_the_fill :
  repair merged_text_frame
  = Ok (mkDataFrame merged_columns
          [ mkRow (Str "1") (Str "roleA") (Str "100");
            mkRow (Str "2") (Str "roleB") (Str "200") ]) ∧
  repair merged_text_frame
  ≠ Ok (mkDataFrame merged_columns
          [ mkRow (Str "1") (Str "roleA") (Str "100");
            mkRow (Str "1") (Str "roleA") (Str "100");
            mkRow (Str "2") (Str "roleB") (Str "200") ]) ∧
  map ColaboradorSheet.matricula
      (get_colaboradores_from_google_sheets_csv (Loaded merged_text_frame))
  = ["1"; "2"] ∧
  repair merged_numeric_frame
  = Ok (mkDataFrame merged_columns
          [ mkRow (Float (FDec false 10 (-1))) (Str "roleA")
                  (Float (FDec false 1000 (-1)));
            mkRow (Float (FDec false 20 (-1))) (Str "roleB")
                  (Float (FDec false 2000 (-1))) ]) ∧
  map ColaboradorSheet.matricula
      (get_colaboradores_from_google_sheets_csv (Loaded merged_numeric_frame))
  = ["1"; "2"].
Proof. split_and!; vm_compute; (reflexivity || discriminate). Qed.

(** C1, amended: the rows whose identifier cell is blank are removed first;
    among the rows that remain, in their order, every blank cell of the role
    and salary columns takes the nearest non-blank value above it in its
    column (it stays blank when there is none), and the identifier column,
    which has no blank cell left, is unchanged; field coercion runs on the
    frame so repaired.  On the example the blank row is removed; a row that
    has an identifier and a blank role and salary takes both from the row
    above. *)
Theorem C1_fill_after_dropna_before_coercion :
  (∀ df, "matricula" ∈ columns df →
    ∃ kept filled,
      dropna df "matricula" = Ok kept ∧
      columns kept = columns df ∧
      rows kept = filter (λ r, notna (c_matricula r)) (rows df) ∧
      repair df = Ok filled ∧
      columns filled = columns df ∧
      length (rows filled) = length (rows kept) ∧
      clean_frame df = iterrows (columns filled) (rows filled) [] ∧
      column filled "matricula" = column kept "matricula" ∧
      (∀ col i c,
          col ∈ merged_columns → col ∈ columns df →
          column kept col !! i = Some c →
          column filled col !! i
          = Some (if notna c then c else last_valid (take i (column kept col)))) ∧
      (∀ col, col ∈ merged_columns → col ∉ columns df →
          column filled col = column kept col)) ∧
  repair merged_text_frame
  = Ok (mkDataFrame merged_columns
          [ mkRow (Str "1") (Str "roleA") (Str "100");
            mkRow (Str "2") (Str "roleB") (Str "200") ]) ∧
  repair merged_role_frame
  = Ok (mkDataFrame merged_columns
          [ mkRow (Str "1") (Str "roleA") (Str "100");
            mkRow (Str "2") (Str "roleA") (Str "100");
            mkRow (Str "3") (Str "roleB") (Str "200") ]).
Proof.
  split; [|split; vm_compute; reflexivity].
  intros df Hm.
  set (kept := mkDataFrame (columns df)
                 (filter (λ r, notna (loc r "matricula")) (rows df))).
  exists kept, (fill_merged kept).
  assert (repair df = Ok (fill_merged kept)) as Hrep
    by (unfold repair; by rewrite dropna_Ok).
  split_and!.
  - by apply dropna_Ok.
  - done.
  - done.
  - done.
  - by rewrite columns_fill_merged.
  - apply length_rows_fill_merged.
  - unfold clean_frame. by rewrite Hrep.
  - rewrite column_fill_merged by (unfold merged_columns; set_solver).
    case_bool_decide; [|done]. unfold kept. rewrite column_filter_notna.
    apply ffill_all_valid, Forall_filter_notna.
  - intros col i c Hcol Hin Hi. rewrite column_fill_merged by done.
    rewrite bool_decide_eq_true_2 by done. by apply fillna_ffill_lookup.
  - intros col Hcol Hin. rewrite column_fill_merged by done.
    by rewrite bool_decide_eq_false_2.
Qed.

Lemma C1_fill_after_dropna_before_coercion_witness :
  ∃ filled, repair merged_role_frame = Ok filled ∧
            column filled "cargo_contabil" !! 1%nat = Some (Str "roleA") ∧
            column filled "salario" !! 1%nat = Some (Str "100") ∧
            column filled "matricula" !! 1%nat = Some (Str "2").
Proof.
  destruct (proj1 C1_fill_after_dropna_before_coercion merged_role_frame)
    as (kept & filled & Hkept & _ & _ & Hfilled & _ & _ & _ & Hid & Hfill & _).
  { unfold merged_role_frame, merged_columns. simpl. left. }
  injection Hkept as <-.
  exists filled. split; [exact Hfilled|]. split; [|split].
  - apply (Hfill "cargo_contabil" 1%nat NaN); [right; left|right; left|reflexivity].
  - apply (Hfill "salario" 1%nat NaN);
      [right; right; left|right; right; left|reflexivity].
  - rewrite Hid. reflexivity.
Defined.

(** ** The combined view *)

(** The combined view raises [HTTPException] exactly when the URL is empty
    (400) or one of the two fetched lists is empty (500); otherwise it
    returns the complete join, one record per authoritative record, whatever
    rows were dropped on the way and however few authoritative records find
    a match.  A [KeyError] or [ValueError] raised for a row never leaves the
    loop over the rows. *)
Lemma combined_view_fails_on_an_empty_source :
  (get_colaboradores_from_db ConnectFailed = [] ∧
   get_colaboradores_from_db QueryFailed = [] ∧
   get_colaboradores_from_db (Fetched []) = [] ∧
   get_colaboradores_from_google_sheets_csv RequestException = [] ∧
   get_colaboradores_from_google_sheets_csv EmptyDataError = [] ∧
   get_colaboradores_from_google_sheets_csv OtherError = []) ∧
  (∀ db web sheet_url, sheet_url ≠ "" →
      get_colaboradores_from_db db = [] ∨
      get_colaboradores_from_google_sheets_csv (web sheet_url) = [] →
      get_colaboradores_completos db web sheet_url = HTTPException 500) ∧
  (∀ db web sheet_url, sheet_url ≠ "" →
      get_colaboradores_from_db db ≠ [] →
      get_colaboradores_from_google_sheets_csv (web sheet_url) ≠ [] →
      get_colaboradores_completos db web sheet_url
      = Return (combine_colaboradores_data
                  (get_colaboradores_from_db db)
                  (get_colaboradores_from_google_sheets_csv (web sheet_url))) ∧
      length (combine_colaboradores_data
                (get_colaboradores_from_db db)
                (get_colaboradores_from_google_sheets_csv (web sheet_url)))
      = length (get_colaboradores_from_db db)) ∧
  (∀ db web sheet_url status,
      get_colaboradores_completos db web sheet_url = HTTPException status ↔
      (sheet_url = "" ∧ status = 400%Z) ∨
      (sheet_url ≠ "" ∧ status = 500%Z ∧
       (get_colaboradores_from_db db = [] ∨
        get_colaboradores_from_google_sheets_csv (web sheet_url) = []))) ∧
  (∀ cols rs acc,
      iterrows cols rs acc ≠ Raise KeyError ∧
      iterrows cols rs acc ≠ Raise ValueError).
Proof.
  assert (∀ s, s ≠ "" → truthy s = true) as Htruthy.
  { intros s Hs. unfold truthy. by destruct (String.eqb_spec s ""). }
  split; [by split_and!|]. split; [|split; [|split]].
  4:{ intros cols rs acc. split; intros H; by apply iterrows_Raise in H. }
  - intros db web sheet_url Hurl Hempty.
    rewrite get_colaboradores_completos_cases by auto.
    destruct Hempty as [-> | ->]; [done|].
    by destruct (get_colaboradores_from_db db).
  - intros db web sheet_url Hurl Hdb Hsheet.
    rewrite get_colaboradores_completos_cases by auto.
    split.
    + destruct (get_colaboradores_from_db db); [done|].
      by destruct (get_colaboradores_from_google_sheets_csv (web sheet_url)).
    + apply combine_length.
  - intros db web sheet_url status.
    destruct (decide (sheet_url = "")) as [->|Hurl].
    + unfold get_colaboradores_completos. simpl. split.
      * intros [= <-]. by left.
      * intros [[_ ->]|[? _]]; done.
    + rewrite get_colaboradores_completos_cases by auto.
      destruct (get_colaboradores_from_db db) as [|a l] eqn:Hdb.
      { split; [intros [= <-]; right; auto|]. intros [[? _]|(_ & -> & _)]; done. }
      destruct (get_colaboradores_from_google_sheets_csv (web sheet_url))
        as [|e l'] eqn:Hsheet.
      { split; [intros [= <-]; right; auto|]. intros [[? _]|(_ & -> & _)]; done. }
      split; [done|]. intros [[? _]|(_ & _ & [?|?])]; done.
Qed.

Example combined_view_on_sample_sources :
  get_colaboradores_completos eva_db blank_salary_sheet "https://sheet"
  = Return [ColaboradorCompleto.mk 5 "Eva" "222" "F" (Some "Caixa") None None] ∧
  get_colaboradores_completos eva_db (λ _, OtherError) "https://sheet"
  = HTTPException 500.
Proof.
  destruct combined_view_fails_on_an_empty_source as (_ & Hfail & Hjoin & _).
  split.
  - destruct (Hjoin eva_db blank_salary_sheet "https://sheet") as [-> _];
      [discriminate..|]. vm_compute. reflexivity.
  - apply Hfail; [discriminate|]. right. reflexivity.
Qed.

(** C5, at the failing input: the database holds one record and the sheet
    two rows, the first with an infinite float as identifier, the second
    usable and matching the record.  The defect of the first row alone makes
    the view fail: [int] raises [OverflowError] for it, which the handlers of
    lines 124-129 do not catch, the fetch answers with an empty list and the
    view raises [HTTPException(500)].  With that row taken out the view
    returns the record joined with the second row. *)
Lemma C5_one_infinite_identifier_fails_the_view :
  convert_row merged_columns infinite_identifier_row = Raise OverflowError ∧
  get_colaboradores_from_google_sheets_csv (Loaded infinite_identifier_frame) = [] ∧
  get_colaboradores_completos bia_db (λ _, Loaded infinite_identifier_frame)
    "https://sheet"
  = HTTPException 500 ∧
  get_colaboradores_from_google_sheets_csv (Loaded usable_rows_frame)
  = [ColaboradorSheet.mk "2" (Some "Fiscal") (Some (FDec false 150000 (-2))) None] ∧
  get_colaboradores_completos bia_db (λ _, Loaded usable_rows_frame) "https://sheet"
  = Return [ColaboradorCompleto.mk 2 "Bia" "333" "F"
              (Some "Fiscal") (Some (FDec false 150000 (-2))) None].
Proof. split_and!; vm_compute; reflexivity. Qed.

(** * Further properties of the code *)

(** ** The reconciler, continued *)

Section ReconcilerAlgebra.

Implicit Types (a : ColaboradorDB.t) (e : ColaboradorSheet.t).
Implicit Types (db_data : list ColaboradorDB.t).
Implicit Types (sheet_data : list ColaboradorSheet.t).

Lemma elem_of_db_keys a db_data :
  a ∈ db_data → str_of_int (ColaboradorDB.codigo a) ∈ db_keys db_data.
Proof.
  intros Ha. unfold db_keys.
  exact (list_elem_of_fmap_2 (λ a, str_of_int (ColaboradorDB.codigo a)) _ a Ha).
Qed.

Lemma map_ext_elem_of {A B} (f g : A → B) (l : list A) :
  (∀ x, x ∈ l → f x = g x) → map f l = map g l.
Proof.
  intros H. apply map_ext_in. intros x Hx. apply H. by apply list_elem_of_In.
Qed.

Lemma with_id_filter_keys db_data sheet_data k :
  k ∈ db_keys db_data →
  with_id k (filter (λ e, ColaboradorSheet.matricula e ∈ db_keys db_data) sheet_data)
  = with_id k sheet_data.
Proof.
  intros Hk. unfold with_id. rewrite list_filter_filter.
  apply list_filter_iff. intros e. split; [by intros [? _]|].
  intros <-. by split.
Qed.

Lemma with_id_NoDup sheet_data k :
  NoDup (map ColaboradorSheet.matricula sheet_data) →
  length (with_id k sheet_data) ≤ 1.
Proof.
  unfold with_id. induction sheet_data as [|e l IH]; intros Hnd; [simpl; lia|].
  simpl in Hnd. apply NoDup_cons in Hnd as [Hnotin Hnd].
  destruct (decide (ColaboradorSheet.matricula e = k)) as [Hk|Hk].
  - rewrite filter_cons_True by done.
    assert (filter (λ e, ColaboradorSheet.matricula e = k) l = []) as ->.
    { apply with_id_nil. intros e' Hin Hk'. apply Hnotin. rewrite Hk, <- Hk'.
      change (map ?f ?l) with (f <$> l). by apply list_elem_of_fmap_2. }
    simpl. lia.
  - rewrite filter_cons_False by done. by apply IH.
Qed.

Lemma sheet_data_map_Permutation sheet_data sheet_data' :
  NoDup (map ColaboradorSheet.matricula sheet_data) →
  sheet_data ≡ₚ sheet_data' →
  sheet_data_map sheet_data = sheet_data_map sheet_data'.
Proof.
  intros Hnd Hperm. apply map_eq. intros k. rewrite !sheet_data_map_lookup.
  assert (NoDup (map ColaboradorSheet.matricula sheet_data')) as Hnd'.
  { change (map ?f ?l) with (f <$> l) in *. by rewrite <- Hperm. }
  pose proof (with_id_NoDup sheet_data k Hnd) as Hlen.
  pose proof (with_id_NoDup sheet_data' k Hnd') as Hlen'.
  assert (with_id k sheet_data ≡ₚ with_id k sheet_data') as Hp
    by (unfold with_id; by rewrite Hperm).
  destruct (with_id k sheet_data) as [|x [|y l]]; simpl in Hlen; [| |lia].
  - apply Permutation_nil_l in Hp. by rewrite Hp.
  - apply Permutation_singleton_l in Hp. by rewrite <- Hp.
Qed.

Lemma sheet_data_map_size sheet_data :
  size (sheet_data_map sheet_data) ≤ length sheet_data.
Proof.
  induction sheet_data as [|e l IH] using rev_ind; [done|].
  rewrite sheet_data_map_snoc, length_app. simpl.
  destruct (sheet_data_map l !! ColaboradorSheet.matricula e) eqn:Hl.
  - rewrite map_size_insert_Some by eauto. lia.
  - rewrite map_size_insert_None by done. lia.
Qed.

End ReconcilerAlgebra.

(** X1: when no external record carries the join key of an authoritative
    record (in particular when the external set is empty), the join is the
    authoritative set with the three optional fields absent everywhere. *)
Theorem X1_disjoint_keys_give_unmatched_records
    (db_data : list ColaboradorDB.t) (sheet_data : list ColaboradorSheet.t) :
  (∀ e, e ∈ sheet_data → ColaboradorSheet.matricula e ∉ db_keys db_data) →
  combine_colaboradores_data db_data sheet_data = map unmatched db_data.
Proof.
  intros Hdisj. rewrite combine_as_map. apply map_ext_elem_of. intros a Ha.
  apply combine_one_unmatched, with_id_nil. intros e He Hk.
  apply (Hdisj e He). rewrite Hk. by apply elem_of_db_keys.
Qed.

Lemma X1_disjoint_keys_give_unmatched_records_witness :
  combine_colaboradores_data [ana] [caixa "7"; caixa "420"] = map unmatched [ana].
Proof.
  apply X1_disjoint_keys_give_unmatched_records.
  intros e He Hin. unfold db_keys in Hin. simpl in Hin.
  apply list_elem_of_singleton in Hin.
  apply elem_of_cons in He as [->|He]; [discriminate Hin|].
  apply elem_of_cons in He as [->|He]; [discriminate Hin|].
  by apply elem_of_nil in He.
Defined.

(** X2: the join treats the authoritative records one by one: the join of
    two authoritative sets put end to end is the two joins put end to end,
    and an empty authoritative set gives an empty join, whatever the external
    set. *)
Theorem X2_join_distributes_over_authoritative_sets
    (db_data1 db_data2 : list ColaboradorDB.t)
    (sheet_data : list ColaboradorSheet.t) :
  combine_colaboradores_data (db_data1 ++ db_data2) sheet_data
  = combine_colaboradores_data db_data1 sheet_data
    ++ combine_colaboradores_data db_data2 sheet_data ∧
  combine_colaboradores_data [] sheet_data = [].
Proof. split; [|done]. rewrite !combine_as_map. apply map_app. Qed.

(** X3: external records whose identifier is the key of no authoritative
    record take no part in the join: removing them from the external set
    leaves the combined set as it is. *)
Theorem X3_external_only_records_are_ignored
    (db_data : list ColaboradorDB.t) (sheet_data : list ColaboradorSheet.t) :
  combine_colaboradores_data db_data
    (filter (λ e, ColaboradorSheet.matricula e ∈ db_keys db_data) sheet_data)
  = combine_colaboradores_data db_data sheet_data.
Proof.
  rewrite !combine_as_map. apply map_ext_elem_of. intros a Ha.
  unfold combine_one. rewrite !sheet_data_map_lookup.
  by rewrite with_id_filter_keys by (by apply elem_of_db_keys).
Qed.

(** X4: when the identifiers of the external records are pairwise distinct,
    the order of the external records does not matter: any rearrangement of
    the external set gives the same combined set. *)
Theorem X4_external_order_is_irrelevant_without_duplicates
    (db_data : list ColaboradorDB.t) (sheet_data sheet_data' : list ColaboradorSheet.t) :
  NoDup (map ColaboradorSheet.matricula sheet_data) →
  sheet_data ≡ₚ sheet_data' →
  combine_colaboradores_data db_data sheet_data
  = combine_colaboradores_data db_data sheet_data'.
Proof.
  intros Hnd Hperm. rewrite !combine_as_map.
  by rewrite (sheet_data_map_Permutation _ _ Hnd Hperm).
Qed.

Lemma X4_external_order_is_irrelevant_without_duplicates_witness :
  combine_colaboradores_data [ana] [caixa "7"; fiscal_42]
  = combine_colaboradores_data [ana] [fiscal_42; caixa "7"].
Proof.
  apply X4_external_order_is_irrelevant_without_duplicates.
  - simpl. apply NoDup_cons. split.
    + intros Hin. apply list_elem_of_singleton in Hin. discriminate Hin.
    + apply NoDup_singleton.
  - apply Permutation_swap.
Defined.

(** X5: the lookup mapping stores every record under its own identifier and
    holds nothing that is not in the external set: a key is bound exactly
    when some external record carries it, the record bound to it carries it,
    and there are at most as many keys as external records. *)
Theorem X5_lookup_mapping_is_keyed_by_identifier
    (sheet_data : list ColaboradorSheet.t) :
  (∀ k e, sheet_data_map sheet_data !! k = Some e →
          e ∈ sheet_data ∧ ColaboradorSheet.matricula e = k) ∧
  (∀ k, is_Some (sheet_data_map sheet_data !! k) ↔
        ∃ e, e ∈ sheet_data ∧ ColaboradorSheet.matricula e = k) ∧
  size (sheet_data_map sheet_data) ≤ length sheet_data.
Proof.
  split; [|split; [|apply sheet_data_map_size]].
  - intros k e. rewrite sheet_data_map_lookup. apply last_with_id.
  - intros k. rewrite sheet_data_map_lookup. split.
    + intros [e He]. exists e. by apply last_with_id.
    + intros (e & He & Hk).
      destruct (last (with_id k sheet_data)) as [e'|] eqn:Hlast; [by eexists|].
      apply last_None in Hlast. by destruct (proj1 (with_id_nil _ _) Hlast e).
Qed.

(** ** The three operations, continued *)

(** X6: the combined view succeeds exactly when both per-source views
    succeed for the same sources and URL, and its body is then the join of
    their two bodies. *)
Theorem X6_combined_view_is_join_of_the_two_views
    (db : db_source) (web : string → sheet_source) (sheet_url : string)
    (combined : list ColaboradorCompleto.t) :
  get_colaboradores_completos db web sheet_url = Return combined ↔
  ∃ db_data sheet_data,
    read_colaboradores_from_db db = Return db_data ∧
    read_colaboradores_from_sheets web sheet_url = Return sheet_data ∧
    combined = combine_colaboradores_data db_data sheet_data.
Proof.
  rewrite read_colaboradores_from_db_cases.
  unfold get_colaboradores_completos, read_colaboradores_from_sheets.
  destruct (truthy sheet_url); simpl.
  2:{ split; [done|]. by intros (? & ? & _ & ? & _). }
  destruct (get_colaboradores_from_db db) as [|a l].
  { split; [done|]. by intros (? & ? & ? & _). }
  destruct (get_colaboradores_from_google_sheets_csv (web sheet_url)) as [|e l'].
  { split; [done|]. by intros (? & ? & _ & ? & _). }
  simpl. split.
  - intros [= <-]. by eexists _, _.
  - intros (? & ? & [= <-] & [= <-] & ->). done.
Qed.

(** X7: no operation ever answers with an empty list: a body returned by any
    of the three handlers holds at least one record. *)
Theorem X7_no_operation_returns_an_empty_list
    (db : db_source) (web : string → sheet_source) (sheet_url : string) :
  read_colaboradores_from_db db ≠ Return [] ∧
  read_colaboradores_from_sheets web sheet_url ≠ Return [] ∧
  get_colaboradores_completos db web sheet_url ≠ Return [].
Proof.
  split_and!.
  - rewrite read_colaboradores_from_db_cases.
    by destruct (get_colaboradores_from_db db).
  - unfold read_colaboradores_from_sheets. destruct (truthy sheet_url); [|done].
    simpl. by destruct (get_colaboradores_from_google_sheets_csv (web sheet_url)).
  - unfold get_colaboradores_completos. destruct (truthy sheet_url); [|done].
    simpl. destruct (get_colaboradores_from_db db) as [|a l] eqn:Hdb; [done|].
    destruct (get_colaboradores_from_google_sheets_csv (web sheet_url)); [done|].
    intros [= H]. apply (f_equal length) in H.
    rewrite combine_length in H. done.
Qed.

(** ** The external fetch, continued *)

Section Fetch.

Implicit Types (df d : DataFrame) (cols : list string) (row r : Row).

Lemma length_omap {A B} (f : A → option B) (l : list A) :
  length (omap f l) ≤ length l.
Proof.
  induction l as [|x l IH]; [done|]. simpl.
  destruct (f x); simpl; [apply le_n_S|apply le_S]; exact IH.
Qed.

Lemma filter_Forall_id {A} (P : A → Prop) `{∀ x, Decision (P x)} (l : list A) :
  Forall P l → filter P l = l.
Proof.
  induction 1 as [|x l Hx _ IH]; [done|].
  rewrite filter_cons_True by done. by rewrite IH.
Qed.

(** What [repair] returns when it returns. *)
Lemma repair_Ok_inv df d :
  repair df = Ok d →
  "matricula" ∈ columns df ∧
  d = fill_merged
        (mkDataFrame (columns df)
           (filter (λ r, notna (loc r "matricula")) (rows df))).
Proof.
  unfold repair. destruct (decide ("matricula" ∈ columns df)) as [Hm|Hm].
  - rewrite dropna_Ok by done. simpl. by intros [= <-].
  - by rewrite dropna_KeyError.
Qed.

Lemma repair_KeyError df :
  "matricula" ∉ columns df → repair df = Raise KeyError.
Proof. intros Hm. unfold repair. by rewrite dropna_KeyError. Qed.

Lemma convert_row_Some_columns cols r (c : ColaboradorSheet.t) :
  convert_row cols r = Ok (Some c) →
  "matricula" ∈ cols ∧ "salario" ∈ cols ∧ "cargo_contabil" ∈ cols.
Proof.
  intros H.
  destruct (decide ("matricula" ∈ cols)) as [Hm|Hm].
  2:{ unfold convert_row in H. by rewrite (getitem_KeyError _ _ _ Hm) in H. }
  destruct (decide ("salario" ∈ cols)) as [Hs|Hs].
  2:{ unfold convert_row in H.
      rewrite (getitem_Ok _ _ _ Hm), (getitem_KeyError _ _ _ Hs) in H.
      unfold mbind, result_bind, bind in H. by destruct (matricula_val _). }
  destruct (decide ("cargo_contabil" ∈ cols)) as [Hc|Hc]; [done|].
  unfold convert_row in H.
  rewrite (getitem_Ok _ _ _ Hm), (getitem_Ok _ _ _ Hs),
    (getitem_KeyError _ _ _ Hc) in H.
  unfold mbind, result_bind, bind in H.
  destruct (matricula_val _) as [[m|]|]; try done;
    destruct (salario_val _); try done; by destruct (truthy m).
Qed.

(** Every record of the external set is the record of a row of the repaired
    frame. *)
Lemma fetched_record_inv (src : sheet_source) (c : ColaboradorSheet.t) :
  c ∈ get_colaboradores_from_google_sheets_csv src →
  ∃ df d r, src = Loaded df ∧ repair df = Ok d ∧ r ∈ rows d ∧
            convert_row (columns d) r = Ok (Some c).
Proof.
  destruct src as [| | |df]; simpl; try (intros H; by apply elem_of_nil in H).
  unfold clean_frame. destruct (repair df) as [d|e] eqn:Hrep; simpl;
    [|intros H; by apply elem_of_nil in H].
  destruct (iterrows (columns d) (rows d) []) as [l|e] eqn:Hl;
    [|intros H; by apply elem_of_nil in H].
  apply iterrows_Ok in Hl. simpl in Hl. subst l. intros Hc.
  apply list_elem_of_omap in Hc as (r & Hr & Hrec).
  exists df, d, r. split_and!; try done.
  unfold record_of in Hrec.
  by destruct (convert_row (columns d) r) as [[c'|]|]; simplify_eq.
Qed.

Lemma float_of_str_Raise (s : string) (e : exn) :
  float_of_str s = Raise e → e = ValueError.
Proof.
  unfold float_of_str. destruct (remove_underscores _ s); [|congruence].
  destruct (split_sign _) as [neg body].
  destruct (_ || _); [done|]. destruct (String.eqb _ "nan"); [done|].
  destruct (parse_decimal body) as [[m x]|]; [done|congruence].
Qed.

Lemma int_of_str_Raise (s : string) (e : exn) :
  int_of_str s = Raise e → e = ValueError.
Proof.
  unfold int_of_str. destruct (split_sign _) as [neg body].
  destruct body as [|c t]; [congruence|].
  destruct (is_digit c); [|congruence].
  destruct (int_body _ _ _); [done|congruence].
Qed.

Lemma py_int_OverflowError (m : cell) :
  py_int m = Raise OverflowError ↔ ∃ neg, m = Float (FInf neg).
Proof.
  split.
  - destruct m as [b|z|[|neg|neg n x]|s]; unfold py_int; try done.
    + by eexists.
    + destruct (int_of_float_finite neg n x) as [z ->]. done.
    + intros H. by apply int_of_str_Raise in H.
  - by intros [neg ->].
Qed.

Lemma salario_val_Raise (s : cell) (e : exn) :
  salario_val s = Raise e → e = ValueError.
Proof.
  unfold salario_val, mbind, result_bind, bind. destruct (notna s); [|done].
  destruct (py_float _) as [x|e'] eqn:Hf; [done|]. intros [= <-].
  by apply float_of_str_Raise in Hf.
Qed.

(** The one exception that the loop does not handle comes from an infinite
    identifier. *)
Lemma convert_row_OverflowError cols r :
  convert_row cols r = Raise OverflowError ↔
  "matricula" ∈ cols ∧ ∃ neg, c_matricula r = Float (FInf neg).
Proof.
  split.
  - intros H.
    destruct (decide ("matricula" ∈ cols)) as [Hm|Hm].
    2:{ unfold convert_row in H. by rewrite (getitem_KeyError _ _ _ Hm) in H. }
    split; [done|]. apply py_int_OverflowError.
    unfold convert_row in H. rewrite (getitem_Ok _ _ _ Hm) in H.
    change (loc r "matricula") with (c_matricula r) in H.
    unfold mbind at 1 2, result_bind at 1 2, bind at 1 2 in H.
    unfold matricula_val in H. unfold mbind at 1, result_bind at 1, bind at 1 in H.
    destruct (notna (c_matricula r)).
    + destruct (py_int (c_matricula r)) as [z|e]; [|by injection H as ->].
      exfalso. unfold getitem in H.
      destruct (bool_decide ("salario" ∈ cols)); [|done].
      unfold mbind, result_bind, bind in H.
      destruct (salario_val _) as [sv|e] eqn:Hsv;
        [|apply salario_val_Raise in Hsv; congruence].
      destruct (truthy _); [|done].
      by destruct (bool_decide ("cargo_contabil" ∈ cols)).
    + exfalso. unfold getitem in H.
      destruct (bool_decide ("salario" ∈ cols)); [|done].
      unfold mbind, result_bind, bind in H.
      destruct (salario_val _) as [sv|e] eqn:Hsv;
        [done|apply salario_val_Raise in Hsv; congruence].
  - intros [Hm [neg Hinf]]. unfold convert_row.
    rewrite (getitem_Ok _ _ _ Hm).
    change (loc r "matricula") with (c_matricula r). by rewrite Hinf.
Qed.

Lemma iterrows_OverflowError cols rs acc :
  iterrows cols rs acc = Raise OverflowError ↔
  ∃ r, r ∈ rs ∧ convert_row cols r = Raise OverflowError.
Proof.
  split.
  - revert acc. induction rs as [|r0 rs IH]; intros acc H; simpl in H; [done|].
    destruct (convert_row cols r0) as [[c|]|[]] eqn:Hr0;
      try (apply IH in H as (r & Hr & Hov); exists r; split; [by right|done]).
    exists r0. split; [left|done].
  - intros (r & Hr & Hov). revert acc.
    induction rs as [|r0 rs IH]; intros acc; [by apply elem_of_nil in Hr|].
    simpl. apply elem_of_cons in Hr as [<-|Hr]; [by rewrite Hov|].
    destruct (convert_row cols r0) as [[c|]|[]]; auto.
Qed.

(** The identifier cells of the repaired frame are the non-blank identifier
    cells of the frame. *)
Lemma repaired_identifier df d (m : cell) :
  repair df = Ok d →
  (∃ r, r ∈ rows d ∧ c_matricula r = m) ↔
  notna m = true ∧ ∃ r, r ∈ rows df ∧ c_matricula r = m.
Proof.
  intros Hrep. pose proof (repair_Ok_inv _ _ Hrep) as [Hm _].
  destruct (repair_matricula df Hm) as (d' & Hrep' & _ & Hcol).
  rewrite Hrep in Hrep'. injection Hrep' as <-.
  assert (∀ df0, (∃ r, r ∈ rows df0 ∧ c_matricula r = m) ↔ m ∈ column df0 "matricula")
    as Hcolumn.
  { intros df0. unfold column. change (map ?f ?l) with (f <$> l).
    rewrite list_elem_of_fmap. split.
    - intros (r & Hr & <-). by exists r.
    - intros (r & -> & Hr). by exists r. }
  rewrite !Hcolumn, Hcol, list_elem_of_filter.
  split; intros [Hna Hin]; split; try done.
  - by apply Is_true_eq_true.
  - by apply Is_true_eq_left.
Qed.

Lemma ffill_idemp (seen : cell) (series : list cell) :
  ffill seen (ffill seen series) = ffill seen series.
Proof.
  revert seen. induction series as [|c t IH]; intros seen; [done|].
  simpl. destruct (notna c) eqn:Hc; simpl.
  - by rewrite Hc, IH.
  - destruct (notna seen); by rewrite IH.
Qed.

(** A frame is its labels and the three columns of its rows. *)
Lemma frame_ext df d :
  columns df = columns d →
  (∀ col, col ∈ merged_columns → column df col = column d col) →
  df = d.
Proof.
  destruct df as [cols rs], d as [cols' rs']. simpl. intros <- Hcol. f_equal.
  pose proof (Hcol "matricula" ltac:(unfold merged_columns; set_solver)) as H1.
  pose proof (Hcol "cargo_contabil" ltac:(unfold merged_columns; set_solver)) as H2.
  pose proof (Hcol "salario" ltac:(unfold merged_columns; set_solver)) as H3.
  unfold column in *. simpl in *. clear Hcol.
  revert rs' H1 H2 H3. induction rs as [|r rs IH]; intros [|r' rs'] H1 H2 H3;
    simpl in *; try done.
  injection H1 as Ha H1. injection H2 as Hb H2. injection H3 as Hc H3.
  f_equal; [|by apply IH].
  destruct r, r'. unfold loc in *. simpl in *. by subst.
Qed.

Lemma fill_merged_idemp df : fill_merged (fill_merged df) = fill_merged df.
Proof.
  apply frame_ext; [by rewrite !columns_fill_merged|].
  intros col Hcol. rewrite (column_fill_merged (fill_merged df)) by done.
  rewrite columns_fill_merged. rewrite (column_fill_merged df) by done.
  case_bool_decide; [|done]. apply ffill_idemp.
Qed.

End Fetch.

(** X8: the hire date is never filled in: every record the external fetch
    returns has [admissao] absent, whatever the sheet, and so has every
    record of a combined set built from such a fetch. *)
Theorem X8_hire_date_is_always_absent
    (src : sheet_source) (db_data : list ColaboradorDB.t) :
  Forall (λ c, ColaboradorSheet.admissao c = None)
         (get_colaboradores_from_google_sheets_csv src) ∧
  Forall (λ c, ColaboradorCompleto.admissao c = None)
         (combine_colaboradores_data db_data
            (get_colaboradores_from_google_sheets_csv src)).
Proof.
  assert (Forall (λ c, ColaboradorSheet.admissao c = None)
            (get_colaboradores_from_google_sheets_csv src)) as Hsheet.
  { apply Forall_forall. intros c Hc.
    apply fetched_record_inv in Hc as (df & d & r & _ & _ & _ & Hrow).
    by apply convert_row_Some in Hrow as (_ & _ & _ & ?). }
  split; [done|]. rewrite combine_as_map. apply Forall_forall. intros c Hc.
  change (map ?f ?l) with (f <$> l) in Hc.
  apply list_elem_of_fmap in Hc as (a & -> & _).
  unfold combine_one. rewrite sheet_data_map_lookup.
  destruct (last _) as [e|] eqn:Hlast; [|done]. simpl.
  apply last_with_id in Hlast as [He _].
  by apply (proj1 (Forall_forall _ _) Hsheet).
Qed.

(** X9: the external fetch returns at most one record per row of the sheet
    that has an identifier: its length is bounded by the number of rows with a
    non-blank identifier cell, hence by the number of rows. *)
Theorem X9_at_most_one_record_per_identified_row (df : DataFrame) :
  length (get_colaboradores_from_google_sheets_csv (Loaded df))
  ≤ length (filter (λ r, notna (c_matricula r)) (rows df)) ∧
  length (filter (λ r, notna (c_matricula r)) (rows df)) ≤ length (rows df).
Proof.
  split; [|apply length_filter]. simpl. unfold clean_frame.
  destruct (repair df) as [d|e] eqn:Hrep; simpl; [|lia].
  destruct (iterrows (columns d) (rows d) []) as [l|e] eqn:Hl; [|simpl; lia].
  apply iterrows_Ok in Hl. simpl in Hl. subst l.
  apply repair_Ok_inv in Hrep as [_ ->].
  etrans; [apply length_omap|]. by rewrite length_rows_fill_merged.
Qed.

(** X10: a sheet that lacks one of the three columns gives no record at all:
    without the identifier column [dropna] raises, and without the salary or
    the role column every row raises [KeyError] and is skipped. *)
Theorem X10_missing_column_gives_no_record (df : DataFrame) :
  "matricula" ∉ columns df ∨ "salario" ∉ columns df ∨
  "cargo_contabil" ∉ columns df →
  get_colaboradores_from_google_sheets_csv (Loaded df) = [].
Proof.
  intros Hmissing.
  destruct (get_colaboradores_from_google_sheets_csv (Loaded df)) as [|c l] eqn:Hl;
    [done|]. exfalso.
  assert (c ∈ get_colaboradores_from_google_sheets_csv (Loaded df)) as Hc
    by (rewrite Hl; left).
  apply fetched_record_inv in Hc as (df' & d & r & [= <-] & Hrep & _ & Hrow).
  apply convert_row_Some_columns in Hrow as (Hm & Hs & Hcg).
  apply repair_Ok_inv in Hrep as [_ ->]. rewrite columns_fill_merged in *.
  simpl in *. by destruct Hmissing as [?|[?|?]].
Qed.

Lemma X10_missing_column_gives_no_record_witness :
  get_colaboradores_from_google_sheets_csv
    (Loaded (mkDataFrame ["matricula"; "salario"]
               [mkRow (Str "7") (Str "Caixa") (Str "100")]))
  = [].
Proof.
  apply X10_missing_column_gives_no_record. right. right. simpl.
  intros Hin. apply elem_of_cons in Hin as [Hin|Hin]; [discriminate Hin|].
  apply list_elem_of_singleton in Hin. discriminate Hin.
Defined.

(** X11: the cleaning of a loaded frame stops with an exception in two cases
    only: [KeyError] when the frame has no identifier column, and
    [OverflowError] when some row holds an infinite identifier; in both the
    fetch returns nothing.  In every other case each row is converted on its
    own and the fetch returns, in row order, the records of the rows of the
    repaired frame that convert. *)
Theorem X11_what_ends_the_cleaning (df : DataFrame) :
  (clean_frame df = Raise KeyError ↔ "matricula" ∉ columns df) ∧
  (clean_frame df = Raise OverflowError ↔
   "matricula" ∈ columns df ∧
   ∃ r neg, r ∈ rows df ∧ c_matricula r = Float (FInf neg)) ∧
  clean_frame df ≠ Raise ValueError ∧
  (∀ e, clean_frame df = Raise e →
        get_colaboradores_from_google_sheets_csv (Loaded df) = []) ∧
  (∀ l, clean_frame df = Ok l →
        ∃ d, repair df = Ok d ∧
             get_colaboradores_from_google_sheets_csv (Loaded df)
             = omap (record_of (columns d)) (rows d)).
Proof.
  assert (∀ d, repair df = Ok d →
            (iterrows (columns d) (rows d) [] = Raise OverflowError ↔
             ∃ r neg, r ∈ rows df ∧ c_matricula r = Float (FInf neg))) as Hloop.
  { intros d Hrep. rewrite iterrows_OverflowError.
    pose proof (repair_Ok_inv _ _ Hrep) as [Hm Hd].
    assert ("matricula" ∈ columns d) as Hmd
      by (rewrite Hd, columns_fill_merged; done).
    split.
    - intros (r & Hr & Hov). apply convert_row_OverflowError in Hov as [_ [neg Hinf]].
      destruct (proj1 (repaired_identifier df d (Float (FInf neg)) Hrep))
        as [_ (r' & ? & ?)]; [by exists r|]. by exists r', neg.
    - intros (r & neg & Hr & Hinf).
      destruct (proj2 (repaired_identifier df d (Float (FInf neg)) Hrep))
        as (r' & Hr' & Hinf'); [split; [done|by exists r]|].
      exists r'. split; [done|]. apply convert_row_OverflowError. eauto. }
  unfold clean_frame.
  destruct (decide ("matricula" ∈ columns df)) as [Hm|Hm].
  - destruct (repair df) as [d|e] eqn:Hrep.
    2:{ unfold repair in Hrep. by rewrite dropna_Ok in Hrep. }
    specialize (Hloop d eq_refl). simpl.
    split_and!.
    + split; [|done]. intros H. by apply iterrows_Raise in H.
    + rewrite Hloop. split; [by intros ?|by intros [_ ?]].
    + intros H. by apply iterrows_Raise in H.
    + intros e He. unfold clean_frame. rewrite Hrep. simpl. by rewrite He.
    + intros l Hl. exists d. split; [done|]. unfold clean_frame.
      rewrite Hrep. simpl. rewrite Hl. by apply iterrows_Ok in Hl.
  - rewrite repair_KeyError by done. simpl. split_and!; try done.
    + split; [done|]. by intros [? _].
    + intros e _. unfold clean_frame. by rewrite repair_KeyError.
Qed.

(** X12: the repair is idempotent: filling the merged cells of a frame whose
    merged cells are filled changes nothing, and repairing a repaired frame
    gives it back. *)
Theorem X12_repair_is_idempotent (df : DataFrame) :
  fill_merged (fill_merged df) = fill_merged df ∧
  (∀ d, repair df = Ok d → repair d = Ok d).
Proof.
  split; [apply fill_merged_idemp|].
  intros d Hrep. pose proof (repair_Ok_inv _ _ Hrep) as [Hm Hd].
  destruct (repair_matricula df Hm) as (d' & Hrep' & Hcols & Hcol).
  rewrite Hrep in Hrep'. injection Hrep' as <-.
  unfold repair. rewrite dropna_Ok by (by rewrite Hcols). simpl. f_equal.
  rewrite filter_Forall_id.
  - replace (mkDataFrame (columns d) (rows d)) with d by (by destruct d).
    rewrite Hd. apply fill_merged_idemp.
  - apply Forall_forall. intros r Hr.
    assert (loc r "matricula" ∈ column d "matricula") as Hin
      by exact (list_elem_of_fmap_2 (λ r, loc r "matricula") _ r Hr).
    rewrite Hcol in Hin. by apply list_elem_of_filter in Hin as [? _].
Qed.

(** X13: in each of the three columns the fill keeps the number of cells,
    never touches a cell that has a value, and leaves no blank cell below a
    cell that has a value; cells above the first value stay blank. *)
Theorem X13_fill_keeps_values_and_leaves_no_gap (df : DataFrame) (col : string) :
  col ∈ merged_columns → col ∈ columns df →
  length (column (fill_merged df) col) = length (column df col) ∧
  (∀ i c, column df col !! i = Some c → notna c = true →
          column (fill_merged df) col !! i = Some c) ∧
  (∀ i j c, column df col !! i = Some c → notna c = true →
            i ≤ j → j < length (column df col) →
            ∃ c', column (fill_merged df) col !! j = Some c' ∧ notna c' = true) ∧
  (∀ j, j < length (column df col) →
        Forall (λ c, notna c = false) (take (S j) (column df col)) →
        column (fill_merged df) col !! j = Some NaN).
Proof.
  intros Hcol Hin. rewrite column_fill_merged by done.
  rewrite bool_decide_eq_true_2 by done.
  set (series := column df col). split_and!.
  - unfold fillna_ffill. apply ffill_length.
  - intros i c Hi Hc. rewrite (fillna_ffill_lookup _ _ _ Hi). by rewrite Hc.
  - intros i j c Hi Hc Hij Hj.
    destruct (lookup_lt_is_Some_2 series j Hj) as [cj Hcj].
    rewrite (fillna_ffill_lookup _ _ _ Hcj).
    destruct (notna cj) eqn:Hnj; [by eexists|].
    assert (i ≠ j) as Hne by (intros ->; congruence).
    assert (c ∈ filter (λ c, notna c) (take j series)) as Hmem.
    { apply list_elem_of_filter. split; [by rewrite Hc|].
      apply list_elem_of_lookup. exists i. rewrite lookup_take_lt by lia. done. }
    unfold last_valid.
    destruct (last (filter (λ c, notna c) (take j series))) as [x|] eqn:Hlast.
    + exists x. split; [done|]. apply last_Some_elem_of in Hlast.
      apply list_elem_of_filter in Hlast as [Hx _]. by apply Is_true_eq_true.
    + apply last_None in Hlast. rewrite Hlast in Hmem. by apply elem_of_nil in Hmem.
  - intros j Hj Hblank.
    destruct (lookup_lt_is_Some_2 series j Hj) as [cj Hcj].
    rewrite (fillna_ffill_lookup _ _ _ Hcj).
    assert (notna cj = false) as ->.
    { apply (proj1 (Forall_forall _ _) Hblank). apply list_elem_of_lookup.
      exists j. rewrite lookup_take_lt by lia. done. }
    unfold last_valid.
    destruct (last (filter (λ c, notna c) (take j series))) as [x|] eqn:Hlast; [|done].
    apply last_Some_elem_of in Hlast.
    apply list_elem_of_filter in Hlast as [Hx Hxin].
    assert (notna x = false) as Hx'.
    { apply (proj1 (Forall_forall _ _) Hblank).
      apply list_elem_of_lookup in Hxin as [i Hi].
      apply list_elem_of_lookup. exists i.
      apply lookup_take_Some in Hi as [Hi Hlt]. rewrite lookup_take_lt by lia. done. }
    rewrite Hx' in Hx. done.
Qed.

Lemma X13_fill_keeps_values_and_leaves_no_gap_witness :
  length (column (fill_merged merged_text_frame) "salario")
  = length (column merged_text_frame "salario") ∧
  column (fill_merged merged_text_frame) "salario" !! 2%nat = Some (Str "200") ∧
  ∃ c', column (fill_merged merged_text_frame) "salario" !! 1%nat = Some c' ∧
        notna c' = true.
Proof.
  destruct (X13_fill_keeps_values_and_leaves_no_gap merged_text_frame "salario")
    as (Hlen & Hkeep & Hgap & _).
  - unfold merged_columns. right. right. left.
  - simpl. unfold merged_columns. right. right. left.
  - split; [exact Hlen|]. split.
    + apply Hkeep; reflexivity.
    + apply (Hgap 0%nat 1%nat (Str "100")); [reflexivity|reflexivity|lia|simpl; lia].
Defined.

(** ** The repair and the values of the frame *)

Section Values.

Implicit Types (df d : DataFrame) (r : Row) (f : cell → cell).

Lemma notna_false (c : cell) : notna c = false → c = NaN.
Proof. by destruct c as [| |[]|]. Qed.

Lemma loc_map_row f r col :
  f NaN = NaN → loc (map_row f r) col = f (loc r col).
Proof.
  intros Hf. unfold loc, map_row. simpl.
  by repeat (case_match; try done).
Qed.

Lemma set_loc_map_row f r col (v : cell) :
  set_loc (map_row f r) col (f v) = map_row f (set_loc r col v).
Proof. unfold set_loc, map_row. simpl. by repeat (case_match; try done). Qed.

Lemma column_map_cells f df col :
  f NaN = NaN → column (map_cells f df) col = map f (column df col).
Proof.
  intros Hf. unfold column, map_cells. simpl. rewrite !map_map.
  apply map_ext. intros r. by apply loc_map_row.
Qed.

Lemma ffill_map f (seen : cell) (series : list cell) :
  (∀ c, notna (f c) = notna c) →
  ffill (f seen) (map f series) = map f (ffill seen series).
Proof.
  intros Hf. revert seen. induction series as [|c t IH]; intros seen; [done|].
  simpl. rewrite Hf. destruct (notna c); simpl; f_equal; apply IH.
Qed.

Lemma fill_column_map_cells f df col :
  (∀ c, notna (f c) = notna c) →
  fill_column (map_cells f df) col = map_cells f (fill_column df col).
Proof.
  intros Hf.
  assert (f NaN = NaN) as Hnan by (apply notna_false; by rewrite Hf).
  unfold fill_column. change (columns (map_cells f df)) with (columns df).
  case_bool_decide; [|done].
  rewrite column_map_cells by done. unfold fillna_ffill.
  rewrite <- Hnan at 1. rewrite ffill_map by done.
  unfold set_column, map_cells. simpl. f_equal.
  generalize (ffill NaN (column df col)). intros values.
  generalize (rows df). intros rs. revert values.
  induction rs as [|r rs IH]; intros [|v values]; simpl; try done.
  by rewrite set_loc_map_row, IH.
Qed.

Lemma fill_merged_map_cells f df :
  (∀ c, notna (f c) = notna c) →
  fill_merged (map_cells f df) = map_cells f (fill_merged df).
Proof.
  intros Hf. unfold fill_merged, merged_columns. simpl.
  by rewrite !fill_column_map_cells.
Qed.

Lemma filter_map_row f (rs : list Row) :
  (∀ c, notna (f c) = notna c) →
  filter (λ r, notna (loc r "matricula")) (map (map_row f) rs)
  = map (map_row f) (filter (λ r, notna (loc r "matricula")) rs).
Proof.
  intros Hf. induction rs as [|r rs IH]; [done|]. simpl.
  rewrite !filter_cons.
  change (loc (map_row f r) "matricula") with (f (c_matricula r)).
  change (loc r "matricula") with (c_matricula r). rewrite Hf.
  destruct (decide (notna (c_matricula r))); simpl; by rewrite IH.
Qed.

(** The repair looks at a value only to see whether it is blank: it
    commutes with every conversion of the values that keeps blanks blank
    and values non-blank. *)
Lemma repair_map_cells f df :
  (∀ c, notna (f c) = notna c) →
  repair (map_cells f df)
  = match repair df with
    | Ok d => Ok (map_cells f d)
    | Raise e => Raise e
    end.
Proof.
  intros Hf. unfold repair, dropna.
  change (columns (map_cells f df)) with (columns df).
  case_bool_decide; [|done]. simpl.
  rewrite filter_map_row by done.
  change (mkDataFrame (columns df) (map (map_row f) ?rs))
    with (map_cells f (mkDataFrame (columns df) rs)).
  by rewrite fill_merged_map_cells.
Qed.

End Values.

(** X23: the repair of lines 95-107 never looks at what a value is, only at
    whether it is blank.  So it commutes with every conversion of the values
    of the frame that keeps blanks blank and values non-blank, such as the
    one that turns the ints of an all-numeric frame into floats when
    [iterrows] reads the rows: converting before the repair or after it
    gives the loop the same rows, and the blank rows and cells are the same
    either way. *)
Theorem X23_repair_is_blind_to_values (f : cell → cell) (df : DataFrame) :
  (∀ c, notna (f c) = notna c) →
  repair (map_cells f df)
  = match repair df with
    | Ok d => Ok (map_cells f d)
    | Raise e => Raise e
    end ∧
  clean_frame (map_cells f df)
  = match repair df with
    | Ok d => iterrows (columns d) (map (map_row f) (rows d)) []
    | Raise e => Raise e
    end ∧
  (∀ col, col ∈ merged_columns →
     map notna (column (fill_merged (map_cells f df)) col)
     = map notna (column (fill_merged df) col)).
Proof.
  intros Hf.
  assert (f NaN = NaN) as Hnan by (apply notna_false; by rewrite Hf).
  pose proof (repair_map_cells f df Hf) as Hrep.
  split; [exact Hrep|]. split.
  - unfold clean_frame. rewrite Hrep. by destruct (repair df).
  - intros col _. rewrite fill_merged_map_cells, column_map_cells by done.
    rewrite map_map. apply map_ext. intros c. apply Hf.
Qed.

Lemma X23_repair_is_blind_to_values_witness :
  repair (map_cells upcast
            (mkDataFrame merged_columns
               [mkRow (Int 7) NaN (Float (FDec false 15005 (-1)));
                mkRow (Int 8) NaN NaN]))
  = Ok (mkDataFrame merged_columns
          [mkRow (Float (FDec false 7 0)) NaN (Float (FDec false 15005 (-1)));
           mkRow (Float (FDec false 8 0)) NaN (Float (FDec false 15005 (-1)))]).
Proof.
  destruct (X23_repair_is_blind_to_values upcast
              (mkDataFrame merged_columns
                 [mkRow (Int 7) NaN (Float (FDec false 15005 (-1)));
                  mkRow (Int 8) NaN NaN])) as [Hrep _].
  - by intros [| |[]|].
  - rewrite Hrep. vm_compute. reflexivity.
Defined.

(** ** Numbers and their text *)

Section Numbers.

Implicit Types (s a b ip fp : string) (c : ascii).

Lemma append_assoc a b s : (a +:+ b) +:+ s = a +:+ (b +:+ s).
Proof.
  induction a as [|c t IH]; [done|]. by rewrite !append_cons, IH.
Qed.

Lemma append_eq_empty a b : a +:+ b = "" → a = "" ∧ b = "".
Proof. destruct a; [done|]. by rewrite append_cons. Qed.

Lemma replace_app old new a b :
  replace old new (a +:+ b) = replace old new a +:+ replace old new b.
Proof.
  induction a as [|c t IH]; [done|]. rewrite append_cons. simpl.
  destruct (Ascii.eqb c old).
  - by rewrite IH, append_assoc.
  - by rewrite IH, append_cons.
Qed.

Lemma is_digit_pretty_N_char (x : N) : is_digit (pretty_N_char x) = true.
Proof. unfold pretty_N_char. repeat case_match; reflexivity. Qed.

Lemma digit_value_pretty_N_char (x : N) :
  (x < 10)%N → digit_value (pretty_N_char x) = x.
Proof.
  intros Hx.
  assert (∀ n : nat, n < 10 →
            digit_value (pretty_N_char (N.of_nat n)) = N.of_nat n) as Hnat.
  { intros n Hn. do 10 (destruct n as [|n]; [reflexivity|]). lia. }
  rewrite <- (N2Nat.id x). apply Hnat. lia.
Qed.

Lemma pretty_N_go_digits (x : N) s :
  all_digits s = true → all_digits (pretty_N_go x s) = true.
Proof.
  revert s. induction (N.lt_wf_0 x) as [x _ IH]; intros s Hs.
  destruct (decide (x = 0%N)) as [->|Hx]; [by rewrite pretty_N_go_0|].
  rewrite pretty_N_go_step by lia. apply IH; [apply N.div_lt; lia|].
  apply all_digits_cons. split; [apply is_digit_pretty_N_char|done].
Qed.

(** [pretty_N_go x s] writes the digits of [x] in front of [s]. *)
Lemma pretty_N_go_value (x : N) s (k v : N) :
  (∀ acc, digits_value acc s = acc * 10 ^ k + v)%N →
  ∃ j, ∀ acc,
    (digits_value acc (pretty_N_go x s) = acc * 10 ^ (j + k) + x * 10 ^ k + v)%N.
Proof.
  revert s k v. induction (N.lt_wf_0 x) as [x _ IH]; intros s k v Hs.
  destruct (decide (x = 0%N)) as [->|Hx].
  - exists 0%N. intros acc. rewrite pretty_N_go_0, Hs.
    rewrite N.add_0_l, N.mul_0_l, N.add_0_r. done.
  - rewrite pretty_N_go_step by lia.
    destruct (IH (x `div` 10)%N ltac:(apply N.div_lt; lia)
                (String (pretty_N_char (x `mod` 10)) s) (k + 1)%N
                ((x `mod` 10) * 10 ^ k + v)%N) as [j Hj].
    { intros acc. simpl. rewrite Hs.
      rewrite digit_value_pretty_N_char by (apply N.mod_lt; lia).
      rewrite N.pow_add_r, N.pow_1_r. ring. }
    exists (j + 1)%N. intros acc. rewrite Hj.
    pose proof (N.div_mod' x 10) as Hdm.
    replace (j + 1 + k)%N with (j + (k + 1))%N by lia.
    rewrite !N.pow_add_r, N.pow_1_r.
    rewrite Hdm at 3. ring.
Qed.

Lemma pretty_N_digits (n : N) :
  all_digits (pretty n) = true ∧ pretty n ≠ "" ∧ digits_value 0 (pretty n) = n.
Proof.
  unfold pretty, pretty_N. destruct (decide (n = 0%N)) as [->|Hn]; [done|].
  split_and!.
  - by apply pretty_N_go_digits.
  - rewrite pretty_N_go_step by lia. by apply pretty_N_go_nonempty.
  - destruct (pretty_N_go_value n "" 0 0) as [j Hj].
    { intros acc. simpl. lia. }
    rewrite Hj. lia.
Qed.

(** [int(str(z))] is [z]. *)
Lemma int_of_str_str_of_int (z : Z) : int_of_str (str_of_int z) = Ok z.
Proof.
  unfold str_of_int, pretty, pretty_Z. destruct z as [|p|p].
  - reflexivity.
  - destruct (pretty_N_digits (N.pos p)) as (Hd & Hne & Hv).
    change (pretty p) with (pretty (N.pos p)).
    rewrite int_of_str_digits by done. by rewrite Hv.
  - destruct (pretty_N_digits (N.pos p)) as (Hd & Hne & Hv).
    change (pretty p) with (pretty (N.pos p)).
    rewrite int_of_str_minus_digits by done. by rewrite Hv.
Qed.

Lemma str_of_int_inj (x y : Z) : str_of_int x = str_of_int y → x = y.
Proof.
  intros H. apply (f_equal int_of_str) in H.
  rewrite !int_of_str_str_of_int in H. by injection H.
Qed.

End Numbers.


(** X16: the join is on the integer value: the key that line 114 makes of
    an identifier value [m] is the key of an authoritative record exactly
    when [int(m)] is that record's [codigo], whatever kind of value [m] is;
    a lone external record carrying that key is then joined to the
    authoritative record, and left out otherwise. *)
Theorem X16_join_is_on_the_integer_value
    (m : cell) (mv : string) (c : ColaboradorSheet.t) (a : ColaboradorDB.t) :
  matricula_val m = Ok (Some mv) →
  ColaboradorSheet.matricula c = mv →
  (mv = str_of_int (ColaboradorDB.codigo a) ↔
   py_int m = Ok (ColaboradorDB.codigo a)) ∧
  (py_int m = Ok (ColaboradorDB.codigo a) →
   combine_colaboradores_data [a] [c] = [matched a c]) ∧
  (py_int m ≠ Ok (ColaboradorDB.codigo a) →
   combine_colaboradores_data [a] [c] = [unmatched a]).
Proof.
  intros Hmv Hc. unfold matricula_val, mbind, result_bind, bind in Hmv.
  destruct (notna m); [|done].
  destruct (py_int m) as [z|] eqn:Hz; [|done].
  injection Hmv as Hid.
  assert (mv = str_of_int (ColaboradorDB.codigo a) ↔
          Ok z = Ok (ColaboradorDB.codigo a)) as Hiff.
  { rewrite <- Hid. split.
    - intros H. apply str_of_int_inj in H. by rewrite H.
    - by intros [= ->]. }
  split; [done|]. split; intros H; rewrite combine_as_map; simpl; f_equal.
  - apply combine_one_matched. unfold with_id.
    by rewrite filter_cons_True by (rewrite Hc; by apply Hiff).
  - apply combine_one_unmatched. unfold with_id.
    by rewrite filter_cons_False by (rewrite Hc, Hiff; done).
Qed.

Lemma X16_join_is_on_the_integer_value_witness :
  combine_colaboradores_data [ana]
    [ColaboradorSheet.mk "42" None (Some (FDec false 400 0)) None]
  = [matched ana (ColaboradorSheet.mk "42" None (Some (FDec false 400 0)) None)] ∧
  combine_colaboradores_data [ana]
    [ColaboradorSheet.mk "43" None (Some (FDec false 400 0)) None]
  = [unmatched ana].
Proof.
  split.
  - apply (X16_join_is_on_the_integer_value (Float (FDec false 429 (-1))) "42");
      vm_compute; reflexivity.
  - apply (X16_join_is_on_the_integer_value (Str " 043 ") "43");
      [vm_compute; reflexivity|reflexivity|vm_compute; discriminate].
Defined.

(** ** Salaries in the comma-decimal notation *)

Section Decimal.

Implicit Types (s a b ip fp : string) (c : ascii).

Lemma digits_or_dots_cons c t :
  digits_or_dots (String c t) = true ↔
  (is_digit c = true ∨ c = "."%char) ∧ digits_or_dots t = true.
Proof.
  simpl. rewrite andb_true_iff, orb_true_iff.
  by destruct (Ascii.eqb_spec c "."); intuition.
Qed.

Lemma replace_dots_all_digits a :
  digits_or_dots a = true → all_digits (replace "." "" a) = true.
Proof.
  induction a as [|c t IH]; [done|]. intros Ha.
  apply digits_or_dots_cons in Ha as [Hc Ht]. simpl.
  destruct (Ascii.eqb_spec c ".") as [->|Hne].
  - rewrite append_nil_l. by apply IH.
  - destruct Hc as [Hc|Hc]; [|done]. apply all_digits_cons. auto.
Qed.

(** The text the coercion hands to [float] for thousands-dots, a comma and
    decimals. *)
Lemma normalise_comma_decimal a b :
  digits_or_dots a = true → all_digits b = true →
  replace "," "." (replace "." "" (a +:+ "," +:+ b))
  = replace "." "" a +:+ "." +:+ b.
Proof.
  intros Ha Hb. rewrite !replace_app.
  rewrite (replace_all_digits "." "" b) by done.
  rewrite (replace_all_digits "," "." (replace "." "" a))
    by (done || by apply replace_dots_all_digits).
  by rewrite (replace_all_digits "," "." b) by done.
Qed.

Lemma remove_underscores_point prev ip fp :
  prev ≠ "_"%char → all_digits ip = true → all_digits fp = true →
  remove_underscores prev (ip +:+ String "." fp) = Some (ip +:+ String "." fp).
Proof.
  revert prev. induction ip as [|c t IH]; intros prev Hprev Hip Hfp.
  - rewrite append_nil_l. simpl.
    destruct (Ascii.eqb_spec prev "_"); [done|]. simpl.
    by rewrite remove_underscores_digits.
  - apply all_digits_cons in Hip as [Hc Ht]. rewrite append_cons. simpl.
    destruct (Ascii.eqb_spec c "_") as [->|Hne]; [done|].
    rewrite Hc, andb_false_r. by rewrite IH.
Qed.

Lemma lstrip_point ip fp :
  all_digits ip = true → lstrip (ip +:+ String "." fp) = ip +:+ String "." fp.
Proof.
  destruct ip as [|c t]; [done|]. intros Hip.
  apply all_digits_cons in Hip as [Hc _]. rewrite append_cons.
  apply is_digit_inv in Hc.
  destruct Hc as [->|[->|[->|[->|[->|[->|[->|[->|[->| ->]]]]]]]]]; reflexivity.
Qed.

Lemma rstrip_point ip fp :
  all_digits ip = true → all_digits fp = true →
  rstrip (ip +:+ String "." fp) = ip +:+ String "." fp.
Proof.
  intros Hip Hfp. induction ip as [|c t IH].
  - rewrite append_nil_l. simpl. rewrite rstrip_digits by done. by destruct fp.
  - apply all_digits_cons in Hip as [Hc Ht]. rewrite append_cons. simpl.
    rewrite IH by done. destruct t; by rewrite ?append_cons, ?append_nil_l.
Qed.

Lemma split_sign_point ip fp :
  all_digits ip = true →
  split_sign (ip +:+ String "." fp) = (false, ip +:+ String "." fp).
Proof.
  destruct ip as [|c t]; [done|]. intros Hip.
  apply all_digits_cons in Hip as [Hc _]. rewrite append_cons.
  apply is_digit_inv in Hc.
  destruct Hc as [->|[->|[->|[->|[->|[->|[->|[->|[->| ->]]]]]]]]]; reflexivity.
Qed.

Lemma point_not_special ip fp :
  all_digits ip = true →
  String.eqb (lower_str (ip +:+ String "." fp)) "inf" = false ∧
  String.eqb (lower_str (ip +:+ String "." fp)) "infinity" = false ∧
  String.eqb (lower_str (ip +:+ String "." fp)) "nan" = false.
Proof.
  destruct ip as [|c t]; [done|]. intros Hip.
  apply all_digits_cons in Hip as [Hc _]. rewrite append_cons.
  apply is_digit_inv in Hc.
  destruct Hc as [->|[->|[->|[->|[->|[->|[->|[->|[->| ->]]]]]]]]];
    split_and!; reflexivity.
Qed.

Lemma span_digits_point ip fp :
  all_digits ip = true →
  span_digits (ip +:+ String "." fp) = (ip, String "." fp).
Proof.
  induction ip as [|c t IH]; [done|]. intros Hip.
  apply all_digits_cons in Hip as [Hc Ht]. rewrite append_cons. simpl.
  by rewrite Hc, IH.
Qed.

Lemma parse_decimal_point ip fp :
  all_digits ip = true → all_digits fp = true → ip +:+ fp ≠ "" →
  parse_decimal (ip +:+ String "." fp)
  = Some (digits_value 0 (ip +:+ fp), (- Z.of_nat (String.length fp))%Z).
Proof.
  intros Hip Hfp Hne. unfold parse_decimal.
  rewrite span_digits_point by done. rewrite span_digits_all by done.
  destruct (String.eqb_spec (ip +:+ fp) ""); done.
Qed.

(** [float] of digits, a point, digits. *)
Lemma float_of_str_point ip fp :
  all_digits ip = true → all_digits fp = true → ip +:+ fp ≠ "" →
  float_of_str (ip +:+ "." +:+ fp)
  = Ok (make_float false (digits_value 0 (ip +:+ fp))
          (- Z.of_nat (String.length fp))).
Proof.
  intros Hip Hfp Hne. change ("." +:+ fp) with (String "." fp).
  unfold float_of_str. rewrite remove_underscores_point by done.
  unfold strip. rewrite lstrip_point, rstrip_point, split_sign_point by done.
  destruct (point_not_special ip fp Hip) as (-> & -> & ->). simpl.
  by rewrite parse_decimal_point.
Qed.

Lemma float_of_str_minus_digits s :
  all_digits s = true → s ≠ "" →
  float_of_str ("-" +:+ s) = Ok (make_float true (digits_value 0 s) 0).
Proof.
  intros Hs Hne. change ("-" +:+ s) with (String "-" s).
  unfold float_of_str. simpl remove_underscores.
  rewrite remove_underscores_digits by done. simpl fmap.
  unfold strip. change (lstrip (String "-" s)) with (String "-" s).
  assert (rstrip (String "-" s) = String "-" s) as ->.
  { simpl. rewrite rstrip_digits by done. by destruct s. }
  simpl split_sign. cbv beta iota.
  destruct (digits_not_special s Hs Hne) as (-> & -> & ->). simpl.
  by rewrite parse_decimal_digits.
Qed.

Lemma replace_minus_digits old new s :
  old ≠ "-"%char → is_digit old = false → all_digits s = true →
  replace old new ("-" +:+ s) = "-" +:+ s.
Proof.
  intros Hold Hd Hs. change ("-" +:+ s) with (String "-" s).
  change (replace old new (String "-" s))
    with (if Ascii.eqb "-" old then new +:+ replace old new s
          else String "-" (replace old new s)).
  destruct (Ascii.eqb_spec "-" old) as [<-|_]; [done|].
  by rewrite replace_all_digits.
Qed.

End Decimal.

(** X17: a salary written in the sheet's notation, with optional dots
    between the digits of the integral part, a comma, and decimals, coerces
    to the float of the number it writes: the digits with the dots dropped,
    scaled down by the number of decimals. *)
Theorem X17_comma_decimal_salary_keeps_its_value (a b : string) :
  digits_or_dots a = true → all_digits b = true →
  replace "." "" a +:+ b ≠ "" →
  salario_val (Str (a +:+ "," +:+ b))
  = Ok (Some (make_float false (digits_value 0 (replace "." "" a +:+ b))
                (- Z.of_nat (String.length b)))).
Proof.
  intros Ha Hb Hne. unfold salario_val. simpl notna. cbv iota.
  simpl py_str. rewrite normalise_comma_decimal by done.
  unfold py_float. rewrite float_of_str_point
    by (done || by apply replace_dots_all_digits).
  done.
Qed.

Lemma X17_comma_decimal_salary_keeps_its_value_witness :
  salario_val (Str ("12.345.678" +:+ "," +:+ "90"))
  = Ok (Some (make_float false
                (digits_value 0 (replace "." "" "12.345.678" +:+ "90"))
                (- Z.of_nat (String.length "90")))).
Proof.
  apply X17_comma_decimal_salary_keeps_its_value; try reflexivity.
  vm_compute. discriminate.
Defined.

(** X18: a salary written as text made of digits only, with no separator,
    keeps its value: it coerces to the float of the number the digits write,
    and with a minus sign in front to the float of its opposite. *)
Theorem X18_whole_number_salary_keeps_its_value (s : string) :
  all_digits s = true → s ≠ "" →
  salario_val (Str s) = Ok (Some (make_float false (digits_value 0 s) 0)) ∧
  salario_val (Str ("-" +:+ s))
  = Ok (Some (make_float true (digits_value 0 s) 0)).
Proof.
  intros Hs Hne. split.
  - unfold salario_val. simpl notna. cbv iota. simpl py_str.
    rewrite (replace_all_digits "." "" s), (replace_all_digits "," "." s) by done.
    unfold py_float. by rewrite float_of_str_digits.
  - unfold salario_val. simpl notna. cbv iota. simpl py_str.
    rewrite (replace_minus_digits "." "" s),
      (replace_minus_digits "," "." s) by done.
    unfold py_float. by rewrite float_of_str_minus_digits.
Qed.

Lemma X18_whole_number_salary_keeps_its_value_witness :
  salario_val (Str "001500") = Ok (Some (make_float false (digits_value 0 "001500") 0)) ∧
  salario_val (Str ("-" +:+ "001500"))
  = Ok (Some (make_float true (digits_value 0 "001500") 0)).
Proof.
  apply X18_whole_number_salary_keeps_its_value; [reflexivity|discriminate].
Defined.



(** ** Fill and coercion together *)

Section FillAndCoercion.

Implicit Types (df : DataFrame) (cols : list string) (r : Row).

Lemma omap_ext_elem_of {A B} (f g : A → option B) (l : list A) :
  (∀ x, x ∈ l → f x = g x) → omap f l = omap g l.
Proof.
  induction l as [|x l IH]; intros H; [done|]. simpl.
  rewrite (H x) by left.
  destruct (g x); [f_equal|]; apply IH; intros y ?; apply H; by right.
Qed.

Lemma length_omap_is_Some {A B} (f : A → option B) (l : list A) :
  (∀ x, x ∈ l → is_Some (f x)) → length (omap f l) = length l.
Proof.
  induction l as [|x l IH]; intros H; [done|]. simpl.
  destruct (H x) as [y ->]; [left|]. simpl. f_equal.
  apply IH. intros z ?. apply H. by right.
Qed.

(** A filled series holds nothing but cells of the series and blanks. *)
Lemma ffill_elem_of (seen x : cell) (series : list cell) :
  x ∈ ffill seen series → x = seen ∨ x ∈ series.
Proof.
  revert seen. induction series as [|c t IH]; intros seen Hx; simpl in Hx.
  - by apply elem_of_nil in Hx.
  - destruct (notna c).
    + apply elem_of_cons in Hx as [->|Hx]; [right; left|].
      apply IH in Hx as [->|Hx]; right; [left|by right].
    + apply elem_of_cons in Hx as [->|Hx]; [by left|].
      apply IH in Hx as [->|Hx]; [by left|right; by right].
Qed.

Lemma elem_of_column df r col : r ∈ rows df → loc r col ∈ column df col.
Proof. intros Hr. exact (list_elem_of_fmap_2 (λ r, loc r col) _ r Hr). Qed.

Lemma elem_of_column_inv df (x : cell) col :
  x ∈ column df col → ∃ r, r ∈ rows df ∧ loc r col = x.
Proof.
  unfold column. change (map ?f ?l) with (f <$> l). intros H.
  apply list_elem_of_fmap in H as (r & -> & Hr). by exists r.
Qed.

(** The last value seen at [i] is still the last one seen after a run of
    blanks. *)
Lemma last_valid_after_blanks (series : list cell) (i n : nat) (c : cell) :
  series !! i = Some c → notna c = true →
  (∀ k ck, i < k → k ≤ i + n → series !! k = Some ck → notna ck = false) →
  i + n < length series →
  last_valid (take (S (i + n)) series) = c.
Proof.
  intros Hi Hc. unfold last_valid. induction n as [|n IH]; intros Hblank Hlen.
  - rewrite Nat.add_0_r. rewrite (take_S_r _ _ _ Hi), filter_app.
    rewrite (filter_cons_True _ c) by (by rewrite Hc).
    by rewrite filter_nil, last_snoc.
  - destruct (lookup_lt_is_Some_2 series (i + S n) Hlen) as [ck Hck].
    rewrite (take_S_r _ _ _ Hck), filter_app.
    rewrite (filter_cons_False _ ck)
      by (rewrite (Hblank (i + S n) ck) by (done || lia); by intros []).
    rewrite filter_nil, app_nil_r.
    replace (i + S n) with (S (i + n)) by lia.
    apply IH; [|lia]. intros k ck' ? ? ?. apply (Hblank k); (done || lia).
Qed.

Lemma fillna_ffill_after_blanks (series : list cell) (i j : nat) (c : cell) :
  series !! i = Some c → notna c = true → i ≤ j → j < length series →
  (∀ k ck, i < k → k ≤ j → series !! k = Some ck → notna ck = false) →
  fillna_ffill series !! j = Some c.
Proof.
  intros Hi Hc Hij Hj Hblank.
  destruct (decide (i = j)) as [<-|Hne].
  - rewrite (fillna_ffill_lookup _ _ _ Hi). by rewrite Hc.
  - destruct (lookup_lt_is_Some_2 series j Hj) as [cj Hcj].
    rewrite (fillna_ffill_lookup _ _ _ Hcj).
    rewrite (Hblank j cj) by (done || lia). f_equal.
    replace j with (S (i + (j - i - 1))) by lia.
    apply last_valid_after_blanks; try done; [|lia].
    intros k ck ? ? ?. apply (Hblank k); (done || lia).
Qed.

(** A row whose salary coercion raises yields no record. *)
Lemma record_of_bad_salary cols r (e : exn) :
  salario_val (c_salario r) = Raise e → record_of cols r = None.
Proof.
  intros Hs. unfold record_of.
  destruct (convert_row cols r) as [[c|]|] eqn:Hrow; try done.
  apply convert_row_Some in Hrow as (_ & Hsv & _). congruence.
Qed.

(** A row with the three columns, an identifier that converts and a salary
    that coerces yields a record keyed by that identifier. *)
Lemma convert_row_well_formed cols r (mv : string) (sv : option float) :
  "matricula" ∈ cols → "salario" ∈ cols → "cargo_contabil" ∈ cols →
  id_of (c_matricula r) = Some mv → salario_val (c_salario r) = Ok sv →
  ∃ c, convert_row cols r = Ok (Some c) ∧ ColaboradorSheet.matricula c = mv.
Proof.
  intros Hm Hs Hc Hid Hsv. rewrite convert_row_columns by done.
  apply matricula_val_id_of in Hid. rewrite Hid, Hsv.
  assert (truthy mv = true) as ->.
  { unfold matricula_val, mbind, result_bind, bind in Hid.
    destruct (notna _); [|done]. destruct (py_int _) as [z|]; [|done].
    injection Hid as <-. apply truthy_str_of_int. }
  by eexists.
Qed.

End FillAndCoercion.

(** X20: a salary text that [float] cannot parse is inherited by the rows
    merged under it: in a frame with a salary column, the row that holds the
    text and every row below it up to the next non-blank salary cell carry
    that text after the fill, and none of them yields a record. *)
Theorem X20_bad_salary_takes_the_merged_rows_with_it
    (df : DataFrame) (i j : nat) (c : cell) (r : Row) :
  "salario" ∈ columns df →
  column df "salario" !! i = Some c → notna c = true →
  py_float (replace "," "." (replace "." "" (py_str c))) = Raise ValueError →
  i ≤ j →
  (∀ k ck, i < k → k ≤ j → column df "salario" !! k = Some ck → notna ck = false) →
  rows (fill_merged df) !! j = Some r →
  c_salario r = c ∧ record_of (columns (fill_merged df)) r = None.
Proof.
  intros Hcol Hi Hc Hfloat Hij Hblank Hr.
  assert (c_salario r = c) as Hsal.
  { assert (column (fill_merged df) "salario" !! j = Some (c_salario r)) as Hj.
    { unfold column. change (map ?f ?l) with (f <$> l).
      by rewrite list_lookup_fmap, Hr. }
    rewrite column_fill_merged in Hj by (unfold merged_columns; set_solver).
    rewrite bool_decide_eq_true_2 in Hj by done.
    rewrite (fillna_ffill_after_blanks _ i j c) in Hj; try done.
    - by injection Hj.
    - apply lookup_lt_Some in Hr. rewrite length_rows_fill_merged in Hr.
      by rewrite length_column. }
  split; [done|]. apply (record_of_bad_salary _ _ ValueError).
  rewrite Hsal. unfold salario_val. rewrite Hc.
  unfold mbind, result_bind, bind. by rewrite Hfloat.
Qed.

Lemma X20_bad_salary_takes_the_merged_rows_with_it_witness :
  c_salario (mkRow (Str "2") (Str "a") (Str "abc")) = Str "abc" ∧
  record_of
    (columns (fill_merged
       (mkDataFrame merged_columns
          [mkRow (Str "1") (Str "a") (Str "abc"); mkRow (Str "2") NaN NaN])))
    (mkRow (Str "2") (Str "a") (Str "abc")) = None.
Proof.
  apply (X20_bad_salary_takes_the_merged_rows_with_it
           (mkDataFrame merged_columns
              [mkRow (Str "1") (Str "a") (Str "abc"); mkRow (Str "2") NaN NaN])
           0%nat 1%nat (Str "abc")).
  - unfold merged_columns. simpl. right. right. left.
  - reflexivity.
  - reflexivity.
  - vm_compute. reflexivity.
  - lia.
  - intros k ck Hk1 Hk2 Hck. assert (k = 1%nat) as -> by lia.
    simpl in Hck. injection Hck as <-. reflexivity.
  - vm_compute. reflexivity.
Defined.

(** X21: a well-formed sheet loses no row: when the labels of the frame are
    distinct and the three columns are among them, every identifier
    converts to an integer that a float holds exactly (below [2^53] in
    magnitude) and every salary is blank or parses, the external fetch
    returns exactly one record per row, in row order, keyed by the
    identifiers of the rows. *)
Theorem X21_well_formed_sheet_loses_no_row (df : DataFrame) :
  NoDup (columns df) →
  "matricula" ∈ columns df → "salario" ∈ columns df →
  "cargo_contabil" ∈ columns df →
  (∀ r, r ∈ rows df →
        ∃ z, py_int (c_matricula r) = Ok z ∧ (Z.abs z < 2 ^ 53)%Z) →
  (∀ r, r ∈ rows df → ∃ sv, salario_val (c_salario r) = Ok sv) →
  length (get_colaboradores_from_google_sheets_csv (Loaded df)) = length (rows df) ∧
  map ColaboradorSheet.matricula
      (get_colaboradores_from_google_sheets_csv (Loaded df))
  = omap id_of (column df "matricula").
Proof.
  intros _ Hm Hs Hc Hint Hsal.
  assert (∀ r, r ∈ rows df → is_Some (id_of (c_matricula r))) as Hid.
  { intros r Hr. destruct (Hint r Hr) as (z & Hz & _). unfold id_of.
    destruct (c_matricula r) as [| |[]|]; try done; rewrite Hz; by eexists. }
  assert (filter (λ r, notna (loc r "matricula")) (rows df) = rows df) as Hkept.
  { apply filter_Forall_id, Forall_forall. intros r Hr.
    destruct (Hid r Hr) as [mv Hmv]. unfold id_of in Hmv.
    change (loc r "matricula") with (c_matricula r).
    by destruct (notna (c_matricula r)). }
  assert (repair df = Ok (fill_merged df)) as Hrep.
  { unfold repair. rewrite dropna_Ok by done. simpl. rewrite Hkept.
    by destruct df. }
  set (d := fill_merged df).
  assert (column d "matricula" = column df "matricula") as Hcolm.
  { unfold d. destruct (repair_matricula df Hm) as (d' & Hrep' & _ & Hcol).
    rewrite Hrep in Hrep'. injection Hrep' as <-. rewrite Hcol.
    apply filter_Forall_id, Forall_forall. intros x Hx.
    apply elem_of_column_inv in Hx as (r & Hr & <-).
    change (loc r "matricula") with (c_matricula r).
    destruct (Hid r Hr) as [mv Hmv]. unfold id_of in Hmv.
    by destruct (notna (c_matricula r)). }
  assert (∀ r, r ∈ rows d →
            ∃ c, convert_row (columns d) r = Ok (Some c) ∧
                 Some (ColaboradorSheet.matricula c) = id_of (c_matricula r)) as Hrow.
  { intros r Hr.
    assert (is_Some (id_of (c_matricula r))) as [mv Hmv].
    { pose proof (elem_of_column d r "matricula" Hr) as Hin.
      rewrite Hcolm in Hin. apply elem_of_column_inv in Hin as (r0 & Hr0 & Heq).
      change (loc r "matricula") with (c_matricula r) in Heq.
      change (loc r0 "matricula") with (c_matricula r0) in Heq.
      rewrite <- Heq. by apply Hid. }
    assert (∃ sv, salario_val (c_salario r) = Ok sv) as [sv Hsv].
    { pose proof (elem_of_column d r "salario" Hr) as Hin.
      unfold d in Hin.
      rewrite column_fill_merged in Hin
        by (unfold merged_columns; right; right; left).
      rewrite bool_decide_eq_true_2 in Hin by done.
      change (loc r "salario") with (c_salario r) in Hin.
      apply ffill_elem_of in Hin as [->|Hin]; [by eexists|].
      apply elem_of_column_inv in Hin as (r0 & Hr0 & Heq).
      change (loc r0 "salario") with (c_salario r0) in Heq.
      rewrite <- Heq. by apply Hsal. }
    destruct (convert_row_well_formed (columns d) r mv sv) as (c & Hc' & Hk);
      try done; try (unfold d; by rewrite columns_fill_merged).
    exists c. by rewrite Hk, Hmv. }
  assert (get_colaboradores_from_google_sheets_csv (Loaded df)
          = omap (record_of (columns d)) (rows d)) as ->.
  { simpl. unfold clean_frame. rewrite Hrep. simpl. fold d.
    rewrite iterrows_total; [done|].
    intros r Hr Hov. destruct (Hrow r Hr) as (c & Hc' & _). congruence. }
  split.
  - rewrite length_omap_is_Some.
    + unfold d. apply length_rows_fill_merged.
    + intros r Hr. destruct (Hrow r Hr) as (c & Hc' & _).
      unfold record_of. rewrite Hc'. by eexists.
  - rewrite map_omap, <- Hcolm. unfold column. rewrite omap_map.
    apply omap_ext_elem_of. intros r Hr. destruct (Hrow r Hr) as (c & Hc' & Hk).
    unfold record_of. rewrite Hc'. simpl. done.
Qed.

Lemma X21_well_formed_sheet_loses_no_row_witness :
  length (get_colaboradores_from_google_sheets_csv (Loaded merged_role_frame))
  = length (rows merged_role_frame) ∧
  map ColaboradorSheet.matricula
      (get_colaboradores_from_google_sheets_csv (Loaded merged_role_frame))
  = omap id_of (column merged_role_frame "matricula").
Proof.
  apply X21_well_formed_sheet_loses_no_row.
  - apply (bool_decide_unpack _). vm_compute. exact I.
  - unfold merged_role_frame, merged_columns. simpl. left.
  - unfold merged_role_frame, merged_columns. simpl. right. right. left.
  - unfold merged_role_frame, merged_columns. simpl. right. left.
  - intros r Hr. unfold merged_role_frame in Hr. simpl in Hr.
    apply elem_of_cons in Hr as [->|Hr]; [exists 1%Z; by split|].
    apply elem_of_cons in Hr as [->|Hr]; [exists 2%Z; by split|].
    apply list_elem_of_singleton in Hr as ->. exists 3%Z. by split.
  - intros r Hr. unfold merged_role_frame in Hr. simpl in Hr.
    apply elem_of_cons in Hr as [->|Hr]; [by eexists|].
    apply elem_of_cons in Hr as [->|Hr]; [by eexists|].
    apply list_elem_of_singleton in Hr as ->. by eexists.
Defined.

(** ** Salaries in a float column *)

Section FloatColumn.

Implicit Types (s ds : string) (m x : N).

Lemma digits_value_app (acc : N) s b :
  digits_value acc (s +:+ b) = digits_value (digits_value acc s) b.
Proof.
  revert acc. induction s as [|c t IH]; intros acc; [done|].
  rewrite append_cons. simpl. apply IH.
Qed.

Lemma length_append s b :
  String.length (s +:+ b) = String.length s + String.length b.
Proof.
  induction s as [|c t IH]; [done|]. rewrite append_cons. simpl. by rewrite IH.
Qed.

Lemma length_zeros (k : nat) : String.length (zeros k) = k.
Proof. induction k as [|k IH]; [done|]. simpl. by rewrite IH. Qed.

(** The digits written for [x] are at most [j] when [x < 10^j]. *)
Lemma pretty_N_go_length (x : N) s (j : nat) :
  (x < 10 ^ N.of_nat j)%N →
  String.length (pretty_N_go x s) ≤ j + String.length s.
Proof.
  revert s j. induction (N.lt_wf_0 x) as [x _ IH]; intros s j Hx.
  destruct (decide (x = 0%N)) as [->|Hne]; [rewrite pretty_N_go_0; lia|].
  rewrite pretty_N_go_step by lia.
  destruct j as [|j]; [simpl in Hx; lia|].
  etrans; [apply (IH (x `div` 10)%N ltac:(apply N.div_lt; lia) _ j)|simpl; lia].
  apply N.Div0.div_lt_upper_bound.
  replace (N.of_nat (S j)) with (N.succ (N.of_nat j)) in Hx by lia.
  by rewrite N.pow_succ_r' in Hx.
Qed.

Lemma drop_trailing_zeros_spec s :
  s = (drop_trailing_zeros s).1 +:+ zeros (drop_trailing_zeros s).2.
Proof.
  induction s as [|c t IH]; [done|]. simpl.
  destruct (drop_trailing_zeros t) as [[|c' t'] k]; simpl in *.
  - destruct (Ascii.eqb_spec c "0") as [->|_]; simpl.
    + by rewrite IH.
    + by rewrite append_cons, append_nil_l, IH.
  - by rewrite append_cons, IH.
Qed.

(** [str] of a float that is a whole number below [10^16]. *)
Lemma str_of_float_whole m :
  (0 < m < 10 ^ 16)%N → str_of_float (FDec false m 0) = pretty m +:+ ".0".
Proof.
  intros Hm. unfold str_of_float.
  destruct (N.eqb_spec m 0) as [->|_]; [lia|].
  pose proof (drop_trailing_zeros_spec (pretty m)) as Hspec.
  destruct (drop_trailing_zeros (pretty m)) as [ds k]. simpl in Hspec.
  assert (String.length (pretty m) ≤ 16) as Hlen.
  { unfold pretty, pretty_N. rewrite decide_False by lia.
    etrans; [apply (pretty_N_go_length m "" 16)|simpl; lia]. apply Hm. }
  assert (pretty m ≠ "") as Hne by (by destruct (pretty_N_digits m) as (_ & ? & _)).
  assert (1 ≤ String.length (pretty m)) as Hpos by (destruct (pretty m); simpl; [done|lia]).
  rewrite Hspec, length_append, length_zeros in Hlen, Hpos.
  set (n := String.length ds) in *.
  destruct (Z.leb_spec (Z.of_nat n + 0 + Z.of_nat k) (-4)); [lia|].
  destruct (Z.ltb_spec 16 (Z.of_nat n + 0 + Z.of_nat k)); [lia|]. simpl orb. cbv iota.
  destruct (Z.leb_spec (Z.of_nat n + 0 + Z.of_nat k) 0); [lia|].
  destruct (Z.leb_spec (Z.of_nat n) (Z.of_nat n + 0 + Z.of_nat k)); [|lia].
  replace (Z.to_nat (Z.of_nat n + 0 + Z.of_nat k) - n) with k by lia.
  rewrite append_nil_l, Hspec. by rewrite append_assoc.
Qed.

End FloatColumn.

(** X22: in a float column a whole-number salary is multiplied by ten: the
    text of the float [m] (a whole number below [10^16]) ends in [".0"], the
    dot is dropped with the others, and the coercion returns the float of
    [10 * m]. *)
Theorem X22_whole_float_salary_is_multiplied_by_ten (m : N) :
  (0 < m < 10 ^ 16)%N →
  py_str (Float (FDec false m 0)) = pretty m +:+ ".0" ∧
  salario_val (Float (FDec false m 0)) = Ok (Some (make_float false (m * 10) 0)).
Proof.
  intros Hm. pose proof (str_of_float_whole m Hm) as Hstr.
  split; [exact Hstr|]. unfold salario_val. simpl notna. cbv iota.
  change (py_str (Float (FDec false m 0))) with (str_of_float (FDec false m 0)).
  rewrite Hstr.
  destruct (pretty_N_digits m) as (Hd & Hne & Hv).
  change (pretty m +:+ ".0") with (pretty m +:+ "." +:+ "0").
  rewrite replace_dot_decimal by done.
  rewrite replace_all_digits by (done || by apply all_digits_app).
  unfold py_float. rewrite float_of_str_digits.
  - rewrite digits_value_app, Hv.
    change (digits_value m "0") with (m * 10 + 0)%N. by rewrite N.add_0_r.
  - by apply all_digits_app.
  - intros H. apply append_eq_empty in H as [? _]. done.
Qed.

Lemma X22_whole_float_salary_is_multiplied_by_ten_witness :
  py_str (Float (FDec false 1500 0)) = pretty 1500%N +:+ ".0" ∧
  salario_val (Float (FDec false 1500 0)) = Ok (Some (make_float false (1500 * 10) 0)).
Proof.
  apply X22_whole_float_salary_is_multiplied_by_ten. split; reflexivity.
Defined.

(** X24: an int salary in a frame without a text column is multiplied by ten.
    When every column of the frame is numeric and not all of them are int64,
    [iterrows] hands out floats: an int salary [z] (positive, below [2^53], so
    that its float is exact) reaches line 115 as the float [z], whose text
    ends in [".0"], and the coercion returns the float of [10 * z].  When
    the frame has a text column the value stays an int, whose text is its
    digits, and the coercion returns the float of [z]. *)
Theorem X24_int_salary_in_a_numeric_frame (z : Z) :
  (0 < z < 2 ^ 53)%Z →
  upcast (Int z) = Float (FDec false (Z.to_N z) 0) ∧
  salario_val (upcast (Int z)) = Ok (Some (make_float false (Z.to_N z * 10) 0)) ∧
  salario_val (Int z) = Ok (Some (make_float false (Z.to_N z) 0)).
Proof.
  intros Hz. destruct z as [|p|p]; [lia| |lia].
  assert (upcast (Int (Z.pos p)) = Float (FDec false (N.pos p) 0)) as Hup
    by reflexivity.
  split; [exact Hup|]. rewrite Hup. simpl Z.to_N.
  destruct (pretty_N_digits (N.pos p)) as (Hd & Hne & Hv).
  split.
  - unfold salario_val. simpl notna. cbv iota.
    change (py_str (Float (FDec false (N.pos p) 0)))
      with (str_of_float (FDec false (N.pos p) 0)).
    rewrite str_of_float_whole by (split; [lia|]; apply N2Z.inj_lt; simpl; lia).
    change (pretty (N.pos p) +:+ ".0") with (pretty (N.pos p) +:+ "." +:+ "0").
    rewrite replace_dot_decimal by done.
    rewrite replace_all_digits by (done || by apply all_digits_app).
    unfold py_float. rewrite float_of_str_digits.
    + rewrite digits_value_app, Hv.
      change (digits_value (N.pos p) "0") with (N.pos p * 10 + 0)%N.
      by rewrite N.add_0_r.
    + by apply all_digits_app.
    + intros H. apply append_eq_empty in H as [? _]. done.
  - unfold salario_val. simpl notna. cbv iota.
    change (py_str (Int (Z.pos p))) with (pretty (N.pos p)).
    rewrite (replace_all_digits "." "" (pretty (N.pos p))),
      (replace_all_digits "," "." (pretty (N.pos p))) by done.
    unfold py_float. rewrite float_of_str_digits by done. by rewrite Hv.
Qed.

Lemma X24_int_salary_in_a_numeric_frame_witness :
  upcast (Int 1500) = Float (FDec false (Z.to_N 1500) 0) ∧
  salario_val (upcast (Int 1500))
  = Ok (Some (make_float false (Z.to_N 1500 * 10) 0)) ∧
  salario_val (Int 1500) = Ok (Some (make_float false (Z.to_N 1500) 0)).
Proof. apply X24_int_salary_in_a_numeric_frame. split; reflexivity. Defined.
